(** * kopf: handler registries, identifier derivation and event posting

    A shallow embedding of [kopf/reactor/registries.py] and
    [kopf/clients/events.py], followed by the properties of the lookup,
    matching, identifier and event-posting code.

    Python objects are modelled by the data the code inspects: a callback
    by its identity (what [id()] returns) in the registries and by its
    shape in [get_callable_id]; dictionaries by [gmap]; sets by [gset];
    generators by the list of what they yield; exceptions by an outcome
    type. *)

From Stdlib Require Import ZArith String Ascii List.
From stdpp Require Import base decidable option list gmap strings pretty.

(** ** Python values and control flow *)

Module py.

(** An exception instance: the qualified names of its class and of all
    its base classes (the method resolution order), and its message. *)
Record Exn := mkExn { exn_mro : list string; exn_message : string }.

(** [isinstance(e, cls)] *)
Definition isinstance (e : Exn) (cls : string) : bool :=
  bool_decide (cls ∈ exn_mro e).

(** The result of running a call: it returns a value or raises. *)
Inductive outcome (A : Type) : Type :=
| Returned (a : A)
| Raised (e : Exn).
Arguments Returned {A} a.
Arguments Raised {A} e.

Definition ValueError (msg : string) : Exn :=
  mkExn ["ValueError"; "Exception"; "BaseException"; "object"] msg.

(** Sequencing of calls: the first exception raised ends the run. *)
#[global] Instance outcome_ret : MRet outcome := @Returned.
#[global] Instance outcome_bind : MBind outcome := λ A B f m,
  match m with
  | Returned a => f a
  | Raised e => Raised e
  end.

(** Truth value of an [Optional[bool]] and of an [Optional[str]]. *)
Definition truthy (b : option bool) : bool := default false b.

Definition str_truthy (s : option string) : bool :=
  match s with
  | Some s => negb (bool_decide (s = EmptyString))
  | None => false
  end.

(** Slicing [l[:stop]] and [l[start:]] with Python's index rules: a
    negative bound counts from the end, and bounds are clamped to
    [0 .. len(l)]. *)
Definition slice_bound (len i : Z) : nat :=
  Z.to_nat (Z.min len (Z.max 0 (if (i <? 0)%Z then len + i else i)%Z)).

Definition slice_to {A} (l : list A) (stop : Z) : list A :=
  take (slice_bound (Z.of_nat (length l)) stop) l.

Definition slice_from {A} (l : list A) (start : Z) : list A :=
  drop (slice_bound (Z.of_nat (length l)) start) l.

(** [s[:stop]], [s[start:]] and [len(s)] on strings. *)
Definition str_slice_to (s : string) (stop : Z) : string :=
  string_of_list_ascii (slice_to (list_ascii_of_string s) stop).

Definition str_slice_from (s : string) (start : Z) : string :=
  string_of_list_ascii (slice_from (list_ascii_of_string s) start).

Definition len (s : string) : Z := Z.of_nat (String.length s).

(** The identity of an object: the integer [id(obj)] returns. Two live
    objects are the same object exactly when their identities agree. *)
Definition ObjectRef := N.
Definition id (o : ObjectRef) : N := o.

End py.

(** ** kopf.structs: the declarations the registries use *)

Module dicts.
(** A field path is a tuple of path segments. *)
Definition FieldPath := list string.
End dicts.

Module bodies.
(** Modelled from the spec: the part of a resource body the filters
    read, [body.get('metadata', {}).get('labels', {})] and the same for
    annotations; either level may be missing. *)
Record Meta := {
  labels : option (gmap string string);
  annotations : option (gmap string string)
}.
Record Body := { metadata : option Meta }.

Definition no_meta : Meta := {| labels := None; annotations := None |}.

Definition get_labels (b : Body) : gmap string string :=
  default ∅ (labels (default no_meta (metadata b))).

Definition get_annotations (b : Body) : gmap string string :=
  default ∅ (annotations (default no_meta (metadata b))).
End bodies.

Module causation.

(** Modelled from the spec: the enumeration [causation.Reason], declared
    in [kopf/reactor/causation.py]; the spec gives the reasons of a
    changing cause as CREATE, UPDATE and DELETE. *)
Inductive Reason := CREATE | UPDATE | DELETE.

#[global] Instance Reason_eq_dec : EqDecision Reason.
Proof. solve_decision. Defined.

(** One entry of a diff: [(operation, field_path, old, new)]. *)
Record DiffItem := {
  diff_op : string;
  diff_field : dicts.FieldPath;
  diff_old : option string;
  diff_new : option string
}.

(** Modelled from the spec: the cause classes, declared in
    [kopf/reactor/causation.py]. A watching or spawning cause carries the
    observed body. *)
Record ResourceCause := { body : bodies.Body }.

(** Modelled from the spec: the changing cause, which adds the reason,
    the diff (possibly [None]) and the [initial] and [deleted] flags. *)
Record ResourceChangingCause := {
  base : ResourceCause;
  reason : Reason;
  diff : option (list DiffItem);
  initial : bool;
  deleted : bool
}.

(** A cause of any class, as [match] receives it. *)
Inductive AnyCause :=
| Plain (c : ResourceCause)
| Changing (c : ResourceChangingCause).

Definition body_of (c : AnyCause) : bodies.Body :=
  match c with
  | Plain c => body c
  | Changing c => body (base c)
  end.

End causation.

Module invocation.
(** Modelled from the spec: [invocation.build_kwargs], defined in
    [kopf/reactor/invocation.py]. The keyword context handed to filter
    callbacks is built from the cause alone, so it is represented by that
    cause. *)
Definition Kwargs := causation.AnyCause.
Definition build_kwargs (cause : causation.AnyCause) : Kwargs := cause.
End invocation.

Module filters.
(** Modelled from the spec: one value of a label or annotation filter,
    declared in [kopf/structs/filters.py]: a literal, one of the two
    tokens, or a callable on the observed value and the keyword context. *)
Inductive MetaFilterValue :=
| Literal (s : string)
| PRESENT
| ABSENT
| Callable (f : option string → invocation.Kwargs → bool).

(** A filter is a dictionary; it is iterated in insertion order. *)
Definition MetaFilter := list (string * MetaFilterValue).
End filters.

Module handlers.

Definition HandlerId := string.

(** Modelled from the spec: the enumeration [handlers.Activity], declared
    in [kopf/structs/handlers.py]; the spec names AUTHENTICATION among
    the lifecycle phases. *)
Inductive Activity :=
| AUTHENTICATION
| OtherActivity (name : string).

#[global] Instance Activity_eq_dec : EqDecision Activity.
Proof. solve_decision. Defined.

(** Modelled from the spec: the handler records, declared in
    [kopf/structs/handlers.py]. The fields the registries read are kept;
    the execution policy ([errors], [timeout], [retries], [backoff]),
    which they never inspect, is left out. *)
Record ActivityHandler := {
  activity_id : HandlerId;
  activity_fn : py.ObjectRef;
  activity : option Activity;
  _fallback : bool
}.

(** The fields shared by the handlers of resources. *)
Record ResourceHandler := {
  id : HandlerId;
  fn : py.ObjectRef;
  labels : option filters.MetaFilter;
  annotations : option filters.MetaFilter;
  when : option (invocation.Kwargs → bool)
}.

(** The three classes of resource handlers; a class is told from
    another by [isinstance]. *)
Record ResourceWatchingHandler := {
  watching_base : ResourceHandler
}.

Record ResourceSpawningHandler := {
  spawning_base : ResourceHandler;
  spawning_requires_finalizer : option bool
}.

Record ResourceChangingHandler := {
  changing_base : ResourceHandler;
  reason : option causation.Reason;
  field : option dicts.FieldPath;
  initial : option bool;
  deleted : option bool;
  requires_finalizer : option bool
}.

(** A resource handler of any class, as [match] receives it. *)
Inductive AnyResourceHandler :=
| Watching (h : ResourceWatchingHandler)
| Spawning (h : ResourceSpawningHandler)
| Changing (h : ResourceChangingHandler).

Definition resource_base (h : AnyResourceHandler) : ResourceHandler :=
  match h with
  | Watching h => watching_base h
  | Spawning h => spawning_base h
  | Changing h => changing_base h
  end.

(** Every handler class has the callback field [fn] of [BaseHandler]. *)
Class BaseHandler (H : Type) := handler_fn : H → py.ObjectRef.

#[global] Instance ActivityHandler_base :
  BaseHandler ActivityHandler := activity_fn.
#[global] Instance ResourceWatchingHandler_base :
  BaseHandler ResourceWatchingHandler := λ h, fn (watching_base h).
#[global] Instance ResourceSpawningHandler_base :
  BaseHandler ResourceSpawningHandler := λ h, fn (spawning_base h).
#[global] Instance ResourceChangingHandler_base :
  BaseHandler ResourceChangingHandler := λ h, fn (changing_base h).

End handlers.

(** ** Callables, as identifier derivation sees them *)

Module callables.

(** The value passed as [fn], by what [get_callable_id] can observe of
    it: [None]; a [functools.partial] around [func]; any other object
    with a [__wrapped__] attribute; a plain function with its name,
    qualified name and code location; a bound method with the names it
    exposes, if any, and its [repr]; any other object, with its [repr].
    The layers of wrapping are finitely nested. *)
Inductive PyObject :=
| PyNone
| Partial (func : PyObject)
| Wrapper (__wrapped__ : PyObject)
| Function (__name__ __qualname__ co_filename : string) (co_firstlineno : Z)
| Method (__qualname__ __name__ : option string) (repr : string)
| Other (repr : string).

End callables.

(** ** kopf.reactor.registries *)

Module registries.
Import handlers.

(** *** GenericRegistry *)

Record GenericRegistry (HandlerT : Type) := { _handlers : list HandlerT }.
Arguments _handlers {HandlerT} _.

Definition __init__ {HandlerT} : GenericRegistry HandlerT := {| _handlers := [] |}.

Definition __bool__ {HandlerT} (self : GenericRegistry HandlerT) : bool :=
  match _handlers self with [] => false | _ => true end.

Definition append {HandlerT} (self : GenericRegistry HandlerT) (handler : HandlerT)
  : GenericRegistry HandlerT :=
  {| _handlers := _handlers self ++ [handler] |}.

(** *** generate_id, get_callable_id *)

Fixpoint get_callable_id (c : callables.PyObject) : py.outcome string :=
  match c with
  | callables.PyNone =>
      py.Raised (py.ValueError "Cannot build a persistent id of None.")
  | callables.Partial func => get_callable_id func
  | callables.Wrapper wrapped => get_callable_id wrapped
  | callables.Function name qualname path line =>
      if bool_decide (name = "<lambda>")
      then py.Returned ("lambda:" +:+ path +:+ ":" +:+ pretty line)
      else py.Returned qualname
  | callables.Method qualname name repr =>
      py.Returned (default (default repr name) qualname)
  | callables.Other repr =>
      py.Raised (py.ValueError ("Cannot get id of " +:+ repr +:+ "."))
  end.

Definition generate_id (fn : callables.PyObject) (id : option string)
    (prefix suffix : option string) : py.outcome HandlerId :=
  real_id ← match id with
            | Some id => py.Returned id
            | None => get_callable_id fn
            end;
  let real_id :=
    if negb (py.str_truthy suffix) then real_id
    else real_id +:+ "/" +:+ default EmptyString suffix in
  let real_id :=
    if negb (py.str_truthy prefix) then real_id
    else default EmptyString prefix +:+ "/" +:+ real_id in
  py.Returned real_id.

(** *** _deduplicated

    The loop over the candidates, with the set [seen_ids] of callback
    identities met so far. *)
Fixpoint _deduplicated_loop {HandlerT} `{BaseHandler HandlerT}
    (seen_ids : gset N) (handlers : list HandlerT) : list HandlerT :=
  match handlers with
  | [] => []
  | handler :: rest =>
      if bool_decide (py.id (handler_fn handler) ∈ seen_ids)
      then _deduplicated_loop seen_ids rest
      else handler ::
           _deduplicated_loop ({[py.id (handler_fn handler)]} ∪ seen_ids) rest
  end.

Definition _deduplicated {HandlerT} `{BaseHandler HandlerT}
    (handlers : list HandlerT) : list HandlerT :=
  _deduplicated_loop ∅ handlers.

(** *** The filters behind [match] *)

Definition is_absent (value : filters.MetaFilterValue) : bool :=
  match value with filters.ABSENT => true | _ => false end.

Definition is_present (value : filters.MetaFilterValue) : bool :=
  match value with filters.PRESENT => true | _ => false end.

(** [value != content[key]] for a value that is not callable: a token
    never equals a string. *)
Definition differs (value : filters.MetaFilterValue) (observed : string) : bool :=
  match value with
  | filters.Literal s => negb (bool_decide (s = observed))
  | _ => true
  end.

Fixpoint _matches_metadata (pattern : filters.MetaFilter)
    (content : gmap string string) (cause : causation.AnyCause) : bool :=
  match pattern with
  | [] => true
  | (key, value) :: rest =>
      if is_absent value && negb (bool_decide (is_Some (content !! key)))
      then _matches_metadata rest content cause
      else if is_present value && bool_decide (is_Some (content !! key))
      then _matches_metadata rest content cause
      else
        match value with
        | filters.Callable f =>
            if f (content !! key) (invocation.build_kwargs cause)
            then _matches_metadata rest content cause
            else false
        | _ =>
            match content !! key with
            | None => false
            | Some observed =>
                if differs value observed then false
                else _matches_metadata rest content cause
            end
        end
  end.

(** [not handler.labels]: the filter is [None] or an empty dictionary. *)
Definition no_filter (f : option filters.MetaFilter) : bool :=
  match f with
  | None | Some [] => true
  | Some _ => false
  end.

Definition _matches_labels (handler : AnyResourceHandler)
    (cause : causation.AnyCause) : bool :=
  no_filter (labels (resource_base handler)) ||
  _matches_metadata (default [] (labels (resource_base handler)))
                    (bodies.get_labels (causation.body_of cause)) cause.

Definition _matches_annotations (handler : AnyResourceHandler)
    (cause : causation.AnyCause) : bool :=
  no_filter (annotations (resource_base handler)) ||
  _matches_metadata (default [] (annotations (resource_base handler)))
                    (bodies.get_annotations (causation.body_of cause)) cause.

Definition _matches_filter_callback (handler : AnyResourceHandler)
    (cause : causation.AnyCause) : bool :=
  match when (resource_base handler) with
  | None => true
  | Some when => when (invocation.build_kwargs cause)
  end.

(** One changed field against the handler's field, by tuple slicing:
    [changed_field[:len(field)] == field or
     changed_field == field[:len(changed_field)]]. *)
Definition field_overlaps (field changed_field : dicts.FieldPath) : bool :=
  bool_decide (py.slice_to changed_field (Z.of_nat (length field)) = field) ||
  bool_decide (changed_field = py.slice_to field (Z.of_nat (length changed_field))).

(** The field check passes when fields are ignored, when the handler is
    not a changing one, when it has no field, or when one of the changed
    fields overlaps with its field. *)
Definition _matches_field (handler : AnyResourceHandler)
    (changed_fields : gset dicts.FieldPath) (ignore_fields : bool) : bool :=
  ignore_fields ||
  match handler with
  | Changing handler =>
      match field handler with
      | None | Some [] => true
      | Some field => existsb (field_overlaps field) (elements changed_fields)
      end
  | _ => true
  end.

(** [match]; the call sites that rely on the defaults pass
    [changed_fields = ∅] and [ignore_fields = false] here.
    [changed_fields or {}] is the same collection of paths. *)
Definition match_ (handler : AnyResourceHandler) (cause : causation.AnyCause)
    (changed_fields : gset dicts.FieldPath) (ignore_fields : bool) : bool :=
  forallb (λ b : bool, b) [
    _matches_field handler changed_fields ignore_fields;
    _matches_labels handler cause;
    _matches_annotations handler cause;
    _matches_filter_callback handler cause
  ].

(** *** ActivityRegistry *)

Module ActivityRegistry.

(** The conditions of the two loops, with Python's precedence: [and]
    binds tighter than [or]. *)
Definition is_regular (activity : Activity) (handler : ActivityHandler) : bool :=
  bool_decide (handlers.activity handler = None) ||
  bool_decide (handlers.activity handler = Some activity) && negb (_fallback handler).

Definition is_fallback (activity : Activity) (handler : ActivityHandler) : bool :=
  bool_decide (handlers.activity handler = None) ||
  bool_decide (handlers.activity handler = Some activity) && _fallback handler.

(** The first loop: what it yields, and the final value of [found]. *)
Fixpoint regular_loop (activity : Activity) (handlers : list ActivityHandler)
    (found : bool) : list ActivityHandler * bool :=
  match handlers with
  | [] => ([], found)
  | handler :: rest =>
      if is_regular activity handler
      then let '(yielded, found) := regular_loop activity rest true in
           (handler :: yielded, found)
      else regular_loop activity rest found
  end.

Definition iter_handlers (self : GenericRegistry ActivityHandler)
    (activity : Activity) : list ActivityHandler :=
  let '(yielded, found) := regular_loop activity (_handlers self) false in
  if negb found
  then yielded ++ List.filter (is_fallback activity) (_handlers self)
  else yielded.

Definition get_handlers (self : GenericRegistry ActivityHandler)
    (activity : Activity) : list ActivityHandler :=
  _deduplicated (iter_handlers self activity).

End ActivityRegistry.

(** *** ResourceRegistry and its subclasses *)

(** [iter_handlers] is abstract in [ResourceRegistry]; each subclass
    gives its own. [get_handlers] is shared. *)
Class ResourceRegistry (CauseT HandlerT : Type) := iter_handlers :
  GenericRegistry HandlerT → CauseT → gset HandlerId → list HandlerT.

Definition get_handlers {CauseT HandlerT} `{BaseHandler HandlerT}
    `{ResourceRegistry CauseT HandlerT}
    (self : GenericRegistry HandlerT) (cause : CauseT)
    (excluded : gset HandlerId) : list HandlerT :=
  _deduplicated (iter_handlers self cause excluded).

Module ResourceWatchingRegistry.

(** The test a handler passes to be yielded. *)
Definition yields (cause : causation.ResourceCause) (excluded : gset HandlerId)
    (handler : ResourceWatchingHandler) : bool :=
  negb (bool_decide (id (watching_base handler) ∈ excluded)) &&
  match_ (Watching handler) (causation.Plain cause) ∅ true.

Definition iter_handlers (self : GenericRegistry ResourceWatchingHandler)
    (cause : causation.ResourceCause) (excluded : gset HandlerId)
    : list ResourceWatchingHandler :=
  List.filter (yields cause excluded) (_handlers self).

End ResourceWatchingRegistry.

Module ResourceSpawningRegistry.

(** The test a handler passes to be yielded. *)
Definition yields (cause : causation.ResourceCause) (excluded : gset HandlerId)
    (handler : ResourceSpawningHandler) : bool :=
  negb (bool_decide (id (spawning_base handler) ∈ excluded)) &&
  match_ (Spawning handler) (causation.Plain cause) ∅ false.

Definition iter_handlers (self : GenericRegistry ResourceSpawningHandler)
    (cause : causation.ResourceCause) (excluded : gset HandlerId)
    : list ResourceSpawningHandler :=
  List.filter (yields cause excluded) (_handlers self).

(** The loop of [requires_finalizer], which returns at the first hit. *)
Fixpoint requires_finalizer_loop (handlers : list ResourceSpawningHandler)
    (cause : causation.ResourceCause) (excluded : gset HandlerId) : bool :=
  match handlers with
  | [] => false
  | handler :: rest =>
      if negb (bool_decide (id (spawning_base handler) ∈ excluded))
      then
        if py.truthy (spawning_requires_finalizer handler) &&
           match_ (Spawning handler) (causation.Plain cause) ∅ false
        then true
        else requires_finalizer_loop rest cause excluded
      else requires_finalizer_loop rest cause excluded
  end.

Definition requires_finalizer (self : GenericRegistry ResourceSpawningHandler)
    (cause : causation.ResourceCause) (excluded : gset HandlerId) : bool :=
  requires_finalizer_loop (_handlers self) cause excluded.

End ResourceSpawningRegistry.

Module ResourceChangingRegistry.

(** [frozenset(field for _, field, _, _ in cause.diff or [])] *)
Definition changed_fields_of (cause : causation.ResourceChangingCause)
    : gset dicts.FieldPath :=
  list_to_set (map causation.diff_field (default [] (causation.diff cause))).

(** The test a handler passes to be yielded: the nested conditions of
    the loop body, [pass] giving [false]. *)
Definition yields (cause : causation.ResourceChangingCause)
    (changed_fields : gset dicts.FieldPath) (excluded : gset HandlerId)
    (handler : ResourceChangingHandler) : bool :=
  if negb (bool_decide (id (changing_base handler) ∈ excluded))
  then
    if bool_decide (reason handler = None) ||
       bool_decide (reason handler = Some (causation.reason cause))
    then
      if py.truthy (initial handler) && negb (causation.initial cause)
      then false
      else if py.truthy (initial handler) && causation.deleted cause
              && negb (py.truthy (deleted handler))
      then false
      else match_ (Changing handler) (causation.Changing cause) changed_fields false
    else false
  else false.

Definition iter_handlers (self : GenericRegistry ResourceChangingHandler)
    (cause : causation.ResourceChangingCause) (excluded : gset HandlerId)
    : list ResourceChangingHandler :=
  let changed_fields := changed_fields_of cause in
  List.filter (yields cause changed_fields excluded) (_handlers self).

(** [not handler.field]: no field, or the empty path. *)
Definition has_field (handler : ResourceChangingHandler) : bool :=
  match field handler with
  | None | Some [] => false
  | Some _ => true
  end.

Definition iter_extra_fields (self : GenericRegistry ResourceChangingHandler)
    : list dicts.FieldPath :=
  omap (λ handler, if has_field handler then field handler else None)
       (_handlers self).

Definition get_extra_fields (self : GenericRegistry ResourceChangingHandler)
    : gset dicts.FieldPath :=
  list_to_set (iter_extra_fields self).

(** The loop of [requires_finalizer], which returns at the first hit. *)
Fixpoint requires_finalizer_loop (handlers : list ResourceChangingHandler)
    (cause : causation.ResourceChangingCause) (excluded : gset HandlerId) : bool :=
  match handlers with
  | [] => false
  | handler :: rest =>
      if negb (bool_decide (id (changing_base handler) ∈ excluded))
      then
        if py.truthy (requires_finalizer handler) &&
           match_ (Changing handler) (causation.Changing cause) ∅ false
        then true
        else requires_finalizer_loop rest cause excluded
      else requires_finalizer_loop rest cause excluded
  end.

Definition requires_finalizer (self : GenericRegistry ResourceChangingHandler)
    (cause : causation.ResourceChangingCause) (excluded : gset HandlerId) : bool :=
  requires_finalizer_loop (_handlers self) cause excluded.

End ResourceChangingRegistry.

#[global] Instance ResourceWatchingRegistry_registry :
  ResourceRegistry causation.ResourceCause ResourceWatchingHandler :=
  ResourceWatchingRegistry.iter_handlers.

#[global] Instance ResourceSpawningRegistry_registry :
  ResourceRegistry causation.ResourceCause ResourceSpawningHandler :=
  ResourceSpawningRegistry.iter_handlers.

#[global] Instance ResourceChangingRegistry_registry :
  ResourceRegistry causation.ResourceChangingCause ResourceChangingHandler :=
  ResourceChangingRegistry.iter_handlers.

End registries.

(** ** kopf.clients.events *)

Module events.
Import py.

Definition MAX_MESSAGE_LENGTH : Z := 1024.
Definition CUT_MESSAGE_INFIX : string := "...".

Definition ObjectReference := gmap string string.

(** The dictionary posted as the event. *)
Record EventBody := {
  metadata_namespace : string;
  metadata_generateName : string;
  action : string;
  type : string;
  reason : string;
  message : string;
  reportingComponent : string;
  reportingInstance : string;
  source_component : string;
  involvedObject : ObjectReference;
  firstTimestamp : string;
  lastTimestamp : string;
  eventTime : string
}.

(** What the surroundings answer to the calls [post_event] makes:
    the clock, [auth.get_pykube_cfg().namespace], [auth.get_pykube_api()]
    and [obj.create] run in the executor for the event built from a
    body. *)
Record Env := {
  utcnow_isoformat : string;
  get_pykube_cfg_namespace : outcome string;
  get_pykube_api : outcome unit;
  create : EventBody → outcome unit
}.

(** What a run of [post_event] does to the outside: it hands a body
    to [obj.create], and it logs a warning with the error and the
    event's type, reason and message. *)
Inductive Effect :=
| Submitted (body : EventBody)
| LoggedWarning (error : Exn) (type reason message : string).

(** A run: its outcome for the caller and its effects, in order. *)
Definition Run (A : Type) : Type := outcome A * list Effect.

#[global] Instance Run_ret : MRet Run := λ A a, (Returned a, []).
#[global] Instance Run_bind : MBind Run := λ A B f m,
  match m with
  | (Returned a, done) => let '(r, more) := f a in (r, done ++ more)
  | (Raised e, done) => (Raised e, done)
  end.

Definition call {A} (answer : outcome A) : Run A := (answer, []).
Definition emit (e : Effect) : Run unit := (Returned (), [e]).

(** [try: body  except classes as e: handler(e)] *)
Definition try_except {A} (body : Run A) (classes : list string)
    (handler : Exn → Run A) : Run A :=
  match body with
  | (Returned a, done) => (Returned a, done)
  | (Raised e, done) =>
      if existsb (isinstance e) classes
      then let '(r, more) := handler e in (r, done ++ more)
      else (Raised e, done)
  end.

(** [ref.get('namespace') or auth.get_pykube_cfg().namespace] *)
Definition resolve_namespace (env : Env) (ref : ObjectReference) : outcome string :=
  if str_truthy (ref !! "namespace")
  then Returned (default EmptyString (ref !! "namespace"))
  else get_pykube_cfg_namespace env.

(** The shortening of an overlong message. *)
Definition shorten (message : string) : string :=
  if (len message >? MAX_MESSAGE_LENGTH)%Z then
    let infix := CUT_MESSAGE_INFIX in
    let prefix := str_slice_to message
                    (MAX_MESSAGE_LENGTH / 2 - (len infix / 2))%Z in
    let suffix := str_slice_from message
                    (- MAX_MESSAGE_LENGTH / 2 + (len infix - len infix / 2))%Z in
    prefix +:+ infix +:+ suffix
  else message.

Definition event_body (now namespace type reason message : string)
    (full_ref : ObjectReference) : EventBody :=
  {| metadata_namespace := namespace;
     metadata_generateName := "kopf-event-";
     action := "Action?";
     type := type;
     reason := reason;
     message := message;
     reportingComponent := "kopf";
     reportingInstance := "dev";
     source_component := "kopf";
     involvedObject := full_ref;
     firstTimestamp := now +:+ "Z";
     lastTimestamp := now +:+ "Z";
     eventTime := now +:+ "Z" |}.

Definition post_event (env : Env) (ref : ObjectReference)
    (type reason message : string) : Run unit :=
  let now := utcnow_isoformat env in
  namespace ← call (resolve_namespace env ref);
  let full_ref := <["namespace" := namespace]> ref in
  let message := shorten message in
  let body := event_body now namespace type reason message full_ref in
  try_except
    (_ ← call (get_pykube_api env);
     _ ← emit (Submitted body);
     call (create env body))
    ["requests.exceptions.HTTPError"; "pykube.exceptions.HTTPError"]
    (λ e, emit (LoggedWarning e type reason message)).

End events.

(** ** Concrete registries, causes and handlers used in the examples *)

Module examples.
Import handlers registries.

Definition plain_handler (id : HandlerId) (fn : py.ObjectRef) : ResourceHandler :=
  {| id := id; fn := fn; labels := None; annotations := None; when := None |}.

Definition empty_body : bodies.Body := {| bodies.metadata := None |}.

Definition plain_cause : causation.ResourceCause := {| causation.body := empty_body |}.

(** [@kopf.on.create] stacked on [@kopf.on.resume] for one function
    (identity 7), and a deletion handler for another (identity 8). *)
Definition on_resume_fn : ResourceChangingHandler :=
  {| changing_base := plain_handler "fn/resume" 7%N;
     reason := None; field := None; initial := Some true;
     deleted := None; requires_finalizer := None |}.

Definition on_create_fn : ResourceChangingHandler :=
  {| changing_base := plain_handler "fn/create" 7%N;
     reason := Some causation.CREATE; field := None; initial := None;
     deleted := None; requires_finalizer := None |}.

Definition on_delete_gn : ResourceChangingHandler :=
  {| changing_base := plain_handler "gn" 8%N;
     reason := Some causation.DELETE; field := None; initial := None;
     deleted := None; requires_finalizer := Some true |}.

Definition stacked_registry : GenericRegistry ResourceChangingHandler :=
  append (append (append __init__ on_resume_fn) on_create_fn) on_delete_gn.

(** A resource created while the operator was down: a creation cause
    that is also an initial one. *)
Definition created_while_down : causation.ResourceChangingCause :=
  {| causation.base := plain_cause; causation.reason := causation.CREATE;
     causation.diff := None; causation.initial := true;
     causation.deleted := false |}.

(** The same resource seen again while it is being deleted. *)
Definition deleted_on_resume : causation.ResourceChangingCause :=
  {| causation.base := plain_cause; causation.reason := causation.DELETE;
     causation.diff := None; causation.initial := true;
     causation.deleted := true |}.

(** Field-scoped handlers. *)
Definition on_field (path : dicts.FieldPath) : ResourceChangingHandler :=
  {| changing_base := plain_handler "field" 9%N;
     reason := None; field := Some path; initial := None;
     deleted := None; requires_finalizer := None |}.

Definition spec_tasks : dicts.FieldPath := ["spec"; "tasks"].
Definition spec_tasks_0_name : dicts.FieldPath := ["spec"; "tasks"; "0"; "name"].

(** A field-scoped handler that asks for a finalizer. *)
Definition on_field_with_finalizer : ResourceChangingHandler :=
  {| changing_base := plain_handler "field/finalizing" 10%N;
     reason := None; field := Some ["spec"]; initial := None;
     deleted := None; requires_finalizer := Some true |}.

Definition spec_changed : causation.ResourceChangingCause :=
  {| causation.base := plain_cause; causation.reason := causation.UPDATE;
     causation.diff := Some [ {| causation.diff_op := "change";
                                 causation.diff_field := ["spec"];
                                 causation.diff_old := Some "1";
                                 causation.diff_new := Some "2" |} ];
     causation.initial := false; causation.deleted := false |}.

(** Activity handlers: a user's login handler, a built-in fallback for
    authentication, and a fallback-marked handler for every activity. *)
Definition user_login : ActivityHandler :=
  {| activity_id := "user_login"; activity_fn := 1%N;
     activity := Some AUTHENTICATION; _fallback := false |}.

Definition login_via_client : ActivityHandler :=
  {| activity_id := "login_via_client"; activity_fn := 2%N;
     activity := Some AUTHENTICATION; _fallback := true |}.

Definition fallback_for_all : ActivityHandler :=
  {| activity_id := "fallback_for_all"; activity_fn := 3%N;
     activity := None; _fallback := true |}.

Definition user_and_builtin : GenericRegistry ActivityHandler :=
  append (append __init__ login_via_client) user_login.

Definition builtin_only : GenericRegistry ActivityHandler :=
  append __init__ login_via_client.

Definition user_and_fallback_for_all : GenericRegistry ActivityHandler :=
  append (append __init__ user_login) fallback_for_all.

Definition finalizing_field_registry : GenericRegistry ResourceChangingHandler :=
  append __init__ on_field_with_finalizer.

(** Exceptions the event-posting calls can raise: an HTTP error answer
    and a refused connection, both of the [requests] library. *)
Definition http_error : py.Exn :=
  py.mkExn ["requests.exceptions.HTTPError"; "requests.exceptions.RequestException";
            "OSError"; "Exception"; "BaseException"; "object"]
           "422 Client Error: Unprocessable Entity".

Definition connection_error : py.Exn :=
  py.mkExn ["requests.exceptions.ConnectionError"; "requests.exceptions.RequestException";
            "OSError"; "Exception"; "BaseException"; "object"]
           "Connection refused".

Definition pod_ref : events.ObjectReference :=
  {[ "kind" := "Pod"; "name" := "pod-1"; "namespace" := "default" ]}.

Definition cluster_answering (answer : py.outcome unit) : events.Env :=
  {| events.utcnow_isoformat := "2019-01-28T18:25:03.000000";
     events.get_pykube_cfg_namespace := py.Returned "default";
     events.get_pykube_api := py.Returned ();
     events.create := λ _, answer |}.

Fixpoint repeated (n : nat) (s : string) : string :=
  match n with
  | O => EmptyString
  | S n => s +:+ repeated n s
  end.

(** A message of 2000 characters. *)
Definition long_message : string := repeated 200 "0123456789".

End examples.

(** ** Notions used to state the properties *)

(** The records whose callback is the object [f]. *)
Definition calls {HandlerT} `{handlers.BaseHandler HandlerT}
    (f : py.ObjectRef) (handler : HandlerT) : bool :=
  bool_decide (py.id (handlers.handler_fn handler) = py.id f).

(** The callable that is left when all [functools.partial] and
    [__wrapped__] layers are taken off. *)
Fixpoint innermost (c : callables.PyObject) : callables.PyObject :=
  match c with
  | callables.Partial func => innermost func
  | callables.Wrapper wrapped => innermost wrapped
  | _ => c
  end.

(** A callable from which an identity can be derived: under its wrapping
    layers there is a function (named or a lambda) or a method. *)
Definition has_derivable_identity (c : callables.PyObject) : bool :=
  match innermost c with
  | callables.Function _ _ _ _ | callables.Method _ _ _ => true
  | _ => false
  end.

(** The composition [prefix/id/suffix] in which a prefix or a suffix
    that is [None] or empty is left out together with its slash. *)
Definition leading (prefix : option string) : string :=
  match prefix with
  | Some prefix =>
      if bool_decide (prefix = EmptyString) then EmptyString else prefix +:+ "/"
  | None => EmptyString
  end.

Definition trailing (suffix : option string) : string :=
  match suffix with
  | Some suffix =>
      if bool_decide (suffix = EmptyString) then EmptyString else "/" +:+ suffix
  | None => EmptyString
  end.

Definition composed (prefix : option string) (id : string) (suffix : option string)
    : string :=
  leading prefix +:+ id +:+ trailing suffix.

(** The same composition as the non-empty segments joined by slashes. *)
Fixpoint joined (segments : list string) : string :=
  match segments with
  | [] => EmptyString
  | [segment] => segment
  | segment :: rest => segment +:+ "/" +:+ joined rest
  end.

Definition non_empty (segments : list (option string)) : list string :=
  List.filter (λ segment, negb (bool_decide (segment = EmptyString)))
              (omap (λ segment, segment) segments).

(** [isinstance(e, (requests.exceptions.HTTPError, pykube.exceptions.HTTPError))] *)
Definition is_http_error (e : py.Exn) : bool :=
  py.isinstance e "requests.exceptions.HTTPError" ||
  py.isinstance e "pykube.exceptions.HTTPError".

(** The identity of the callback of a handler record. *)
Definition callback_of {HandlerT} `{handlers.BaseHandler HandlerT}
    (handler : HandlerT) : N :=
  py.id (handlers.handler_fn handler).

(** What one entry of a label or annotation filter asks of the observed
    value of its key. *)
Definition satisfied (value : filters.MetaFilterValue) (observed : option string)
    (cause : causation.AnyCause) : Prop :=
  match value with
  | filters.ABSENT => observed = None
  | filters.PRESENT => is_Some observed
  | filters.Callable f => f observed (invocation.build_kwargs cause) = true
  | filters.Literal s => observed = Some s
  end.

(** A layer of decoration around a callable: a [functools.partial] or a
    wrapper made with [functools.wraps], and a callable under a stack of
    such layers, outermost first. *)
Inductive Layer := PartialLayer | WrapsLayer.

Definition wrap_in (layer : Layer) (c : callables.PyObject) : callables.PyObject :=
  match layer with
  | PartialLayer => callables.Partial c
  | WrapsLayer => callables.Wrapper c
  end.

Definition decorated (layers : list Layer) (c : callables.PyObject)
    : callables.PyObject :=
  foldr wrap_in c layers.

(** The effects that hand a body over for creation. *)
Definition is_submission (effect : events.Effect) : bool :=
  match effect with
  | events.Submitted _ => true
  | events.LoggedWarning _ _ _ _ => false
  end.

(** ** kopf.reactor.registries: the operator registries *)

Module resources_.

(** Modelled from the spec: a resource kind, declared in
    [kopf/structs/resources.py], by its coordinates. *)
Record Resource := { group : string; version : string; plural : string }.

#[global] Instance Resource_eq_dec : EqDecision Resource.
Proof. solve_decision. Defined.

#[global] Instance Resource_countable : Countable Resource :=
  inj_countable' (λ r, (group r, version r, plural r))
                 (λ t, {| group := t.1.1; version := t.1.2; plural := t.2 |})
                 (λ r, match r with Build_Resource _ _ _ => eq_refl end).

End resources_.

Module operator.
Import handlers registries.

(** [OperatorRegistry]: the activity handlers, and a registry per
    resource for each kind of cause. *)
Record OperatorRegistry := {
  activity_handlers : GenericRegistry ActivityHandler;
  resource_watching_handlers :
    gmap resources_.Resource (GenericRegistry ResourceWatchingHandler);
  resource_spawning_handlers :
    gmap resources_.Resource (GenericRegistry ResourceSpawningHandler);
  resource_changing_handlers :
    gmap resources_.Resource (GenericRegistry ResourceChangingHandler)
}.

Definition __init__ : OperatorRegistry :=
  {| activity_handlers := registries.__init__;
     resource_watching_handlers := ∅;
     resource_spawning_handlers := ∅;
     resource_changing_handlers := ∅ |}.

(** The property [resources]: the keys of the three mappings. *)
Definition resources (self : OperatorRegistry) : gset resources_.Resource :=
  dom (resource_watching_handlers self) ∪
  dom (resource_spawning_handlers self) ∪
  dom (resource_changing_handlers self).

(** [self.activity_handlers.append(handler)] *)
Definition append_activity (self : OperatorRegistry) (handler : ActivityHandler)
    : OperatorRegistry :=
  {| activity_handlers := append (activity_handlers self) handler;
     resource_watching_handlers := resource_watching_handlers self;
     resource_spawning_handlers := resource_spawning_handlers self;
     resource_changing_handlers := resource_changing_handlers self |}.

(** What [SmartOperatorRegistry.__init__] finds around it: whether
    [import pykube] and [import kubernetes] succeed (they raise
    [ImportError] otherwise), and the two login functions of
    [kopf.utilities.piggybacking]. *)
Record Surroundings := {
  pykube_importable : bool;
  kubernetes_importable : bool;
  login_via_pykube : py.ObjectRef;
  login_via_client : py.ObjectRef
}.

Module SmartOperatorRegistry.

Definition __init__ (around : Surroundings) : OperatorRegistry :=
  let self := operator.__init__ in
  let self :=
    if pykube_importable around
    then append_activity self
           {| activity_id := "login_via_pykube";
              activity_fn := login_via_pykube around;
              activity := Some AUTHENTICATION;
              _fallback := true |}
    else self in
  if kubernetes_importable around
  then append_activity self
         {| activity_id := "login_via_client";
            activity_fn := login_via_client around;
            activity := Some AUTHENTICATION;
            _fallback := true |}
  else self.

End SmartOperatorRegistry.

(** The module-level variable [_default_registry] is threaded through
    the two functions that read and write it. *)
Definition get_default_registry (around : Surroundings)
    (_default_registry : option OperatorRegistry)
    : OperatorRegistry * option OperatorRegistry :=
  match _default_registry with
  | None =>
      let created := SmartOperatorRegistry.__init__ around in
      (created, Some created)
  | Some registry => (registry, Some registry)
  end.

Definition set_default_registry (registry : OperatorRegistry)
    (_default_registry : option OperatorRegistry) : option OperatorRegistry :=
  Some registry.

End operator.

(** ** kopf.on: the decorators *)

Module on.

(** The [field] argument: a dotted string, or a list or tuple of
    segments. *)
Inductive FieldSpec :=
| Dotted (path : string)
| Segments (path : list string).

(** The keyword arguments of the three registration calls the decorators
    make. An argument that a decorator leaves to the callee's default is
    [None] in [cause_initial], [cause_field] and
    [cause_requires_finalizer]; timeouts are passed on as they come. *)
Record CauseHandlerCall (Timeout : Type) := {
  cause_group : string;
  cause_version : string;
  cause_plural : string;
  cause_reason : option causation.Reason;
  cause_initial : option bool;
  cause_field : option FieldSpec;
  cause_id : option string;
  cause_timeout : option Timeout;
  cause_fn : py.ObjectRef;
  cause_requires_finalizer : option bool;
  cause_labels : option (gmap string string);
  cause_annotations : option (gmap string string)
}.
Arguments cause_fn {Timeout} _.
Arguments cause_reason {Timeout} _.
Arguments cause_initial {Timeout} _.
Arguments cause_requires_finalizer {Timeout} _.

Record EventHandlerCall := {
  event_group : string;
  event_version : string;
  event_plural : string;
  event_id : option string;
  event_fn : py.ObjectRef;
  event_labels : option (gmap string string);
  event_annotations : option (gmap string string)
}.

Record SubHandlerCall (Timeout : Type) := {
  sub_id : option string;
  sub_fn : py.ObjectRef;
  sub_timeout : option Timeout
}.
Arguments sub_fn {Timeout} _.

(** A call received by a registry: [register_cause_handler],
    [register_event_handler] or [register]. *)
Inductive Call (Timeout : Type) :=
| RegisterCauseHandler (call : CauseHandlerCall Timeout)
| RegisterEventHandler (call : EventHandlerCall)
| Register (call : SubHandlerCall Timeout).
Arguments RegisterCauseHandler {Timeout} call.
Arguments RegisterEventHandler {Timeout} call.
Arguments Register {Timeout} call.


(** What the decorators find around them: the default registry, and the
    answer of [handling.subregistry_var.get()], the registry of the
    handler being executed, which raises outside of a handler. *)
Record Surroundings := {
  default_registry : py.ObjectRef;
  subregistry : py.outcome py.ObjectRef
}.

Section decorators.
Context {Timeout : Type}.

(** The calls made so far, each with the registry that received it. *)
Definition Calls : Type := list (py.ObjectRef * Call Timeout).

(** A decorator takes the function, makes its call and returns the
    function. *)
Definition HandlerDecorator : Type :=
  py.ObjectRef → Calls → py.outcome py.ObjectRef * Calls.

(** [registry if registry is not None else registries.get_default_registry()] *)
Definition actual_registry (around : Surroundings) (registry : option py.ObjectRef)
    : py.ObjectRef :=
  default (default_registry around) registry.

Definition resume (around : Surroundings) (group version plural : string)
    (id : option string) (timeout : option Timeout)
    (registry : option py.ObjectRef)
    (labels annotations : option (gmap string string)) : HandlerDecorator :=
  λ fn calls,
    (py.Returned fn,
     calls ++ [(actual_registry around registry,
                RegisterCauseHandler
                  {| cause_group := group; cause_version := version;
                     cause_plural := plural;
                     cause_reason := None; cause_initial := Some true;
                     cause_field := None; cause_id := id;
                     cause_timeout := timeout; cause_fn := fn;
                     cause_requires_finalizer := None;
                     cause_labels := labels;
                     cause_annotations := annotations |})]).

Definition create (around : Surroundings) (group version plural : string)
    (id : option string) (timeout : option Timeout)
    (registry : option py.ObjectRef)
    (labels annotations : option (gmap string string)) : HandlerDecorator :=
  λ fn calls,
    (py.Returned fn,
     calls ++ [(actual_registry around registry,
                RegisterCauseHandler
                  {| cause_group := group; cause_version := version;
                     cause_plural := plural;
                     cause_reason := Some causation.CREATE; cause_initial := None;
                     cause_field := None; cause_id := id;
                     cause_timeout := timeout; cause_fn := fn;
                     cause_requires_finalizer := None;
                     cause_labels := labels;
                     cause_annotations := annotations |})]).



Definition field (around : Surroundings) (group version plural : string)
    (field : FieldSpec) (id : option string) (timeout : option Timeout)
    (registry : option py.ObjectRef)
    (labels annotations : option (gmap string string)) : HandlerDecorator :=
  λ fn calls,
    (py.Returned fn,
     calls ++ [(actual_registry around registry,
                RegisterCauseHandler
                  {| cause_group := group; cause_version := version;
                     cause_plural := plural;
                     cause_reason := None; cause_initial := None;
                     cause_field := Some field; cause_id := id;
                     cause_timeout := timeout; cause_fn := fn;
                     cause_requires_finalizer := None;
                     cause_labels := labels;
                     cause_annotations := annotations |})]).


(** [registry if registry is not None else handling.subregistry_var.get()] *)
Definition this (around : Surroundings) (id : option string)
    (timeout : option Timeout) (registry : option py.ObjectRef)
    : HandlerDecorator :=
  λ fn calls,
    match (match registry with
           | Some registry => py.Returned registry
           | None => subregistry around
           end) with
    | py.Raised e => (py.Raised e, calls)
    | py.Returned actual_registry =>
        (py.Returned fn,
         calls ++ [(actual_registry,
                    Register {| sub_id := id; sub_fn := fn;
                                sub_timeout := timeout |})])
    end.

Definition register (around : Surroundings) (fn : py.ObjectRef)
    (id : option string) (timeout : option Timeout)
    (registry : option py.ObjectRef) (calls : Calls)
    : py.outcome py.ObjectRef * Calls :=
  this around id timeout registry fn calls.


End decorators.

End on.

(** ** kopf.cli: the commands *)

Module cli.
Import py.

(** Modelled from the spec: the arguments [peering.Peer] is constructed
    with; the class is declared in [kopf/engines/peering.py]. [resume]
    passes neither priority nor lifetime. *)
Record Peer := {
  peer_id : string;
  peer_name : string;
  peer_namespace : option string;
  peer_priority : option Z;
  peer_lifetime : option Z
}.

(** The arguments of [running.run]. *)
Record RunArguments := {
  run_standalone : bool;
  run_namespace : option string;
  run_priority : Z;
  run_peering_name : option string
}.

(** What the commands find around them: the answers of
    [auth.login(verify=True)], [loaders.preload], [running.run],
    [peering.detect_own_id()] and of running a peer's [keepalive()] or
    [disappear()] to completion. *)
Record Env := {
  login : outcome unit;
  preload : list string → list string → outcome unit;
  running_run : RunArguments → outcome unit;
  detect_own_id : outcome string;
  keepalive : Peer → outcome unit;
  disappear : Peer → outcome unit
}.

(** The calls a command makes, in order. *)
Inductive Step :=
| Login
| Preload (paths modules : list string)
| Run (arguments : RunArguments)
| DetectOwnId
| Keepalive (peer : Peer)
| Disappear (peer : Peer).

Definition Command (A : Type) : Type := outcome A * list Step.

#[global] Instance Command_ret : MRet Command := λ A a, (Returned a, []).
#[global] Instance Command_bind : MBind Command := λ A B f m,
  match m with
  | (Returned a, done) => let '(r, more) := f a in (r, done ++ more)
  | (Raised e, done) => (Raised e, done)
  end.

Definition step {A} (s : Step) (answer : outcome A) : Command A := (answer, [s]).

(** [click.ClickException(message)] *)
Definition ClickException (message : string) : Exn :=
  mkExn ["click.exceptions.ClickException"; "Exception"; "BaseException"; "object"]
        message.

(** [cli_login]: the two [except] clauses in their order; [str(e)] is
    the message of the error. *)
Definition cli_login (env : Env) : Command unit :=
  match step Login (login env) with
  | (Returned a, done) => (Returned a, done)
  | (Raised e, done) =>
      if isinstance e "kopf.clients.auth.LoginError"
      then (Raised (ClickException (exn_message e)), done)
      else if isinstance e "kopf.clients.auth.AccessError"
      then (Raised (ClickException (exn_message e)), done)
      else (Raised e, done)
  end.

Definition run (env : Env) (paths modules : list string)
    (peering_name : option string) (priority : Z) (standalone : bool)
    (namespace : option string) : Command unit :=
  _ ← cli_login env;
  _ ← step (Preload paths modules) (preload env paths modules);
  let arguments :=
    {| run_standalone := standalone; run_namespace := namespace;
       run_priority := priority; run_peering_name := peering_name |} in
  step (Run arguments) (running_run env arguments).

(** [id or peering.detect_own_id()] *)
Definition own_id (env : Env) (id : option string) : Command string :=
  if str_truthy id then mret (default EmptyString id)
  else step DetectOwnId (detect_own_id env).

Definition freeze (env : Env) (id message : option string) (lifetime : Z)
    (namespace : option string) (peering_name : string) (priority : Z)
    : Command unit :=
  _ ← cli_login env;
  id ← own_id env id;
  let ourserlves :=
    {| peer_id := id; peer_name := peering_name; peer_namespace := namespace;
       peer_priority := Some priority; peer_lifetime := Some lifetime |} in
  step (Keepalive ourserlves) (keepalive env ourserlves).

Definition resume (env : Env) (id : option string) (namespace : option string)
    (peering_name : string) : Command unit :=
  _ ← cli_login env;
  id ← own_id env id;
  let ourselves :=
    {| peer_id := id; peer_name := peering_name; peer_namespace := namespace;
       peer_priority := None; peer_lifetime := None |} in
  step (Disappear ourselves) (disappear env ourselves).

End cli.

(** ** Further notions used to state the properties *)


(** What [cli_login] raises when the login raises [e]. *)
Definition login_failure (e : py.Exn) : py.Exn :=
  if py.isinstance e "kopf.clients.auth.LoginError" ||
     py.isinstance e "kopf.clients.auth.AccessError"
  then cli.ClickException (py.exn_message e)
  else e.

(** ** Further concrete inputs used in the examples *)

Module more_examples.
Import handlers registries.

Definition spy : ResourceWatchingHandler :=
  {| watching_base := examples.plain_handler "spy" 20%N |}.

Definition spy_registry : GenericRegistry ResourceWatchingHandler :=
  append __init__ spy.

Definition finalizing_spawner : ResourceSpawningHandler :=
  {| spawning_base := examples.plain_handler "spawn" 21%N;
     spawning_requires_finalizer := Some true |}.

Definition spawning_registry : GenericRegistry ResourceSpawningHandler :=
  append __init__ finalizing_spawner.

Definition field_registry : GenericRegistry ResourceChangingHandler :=
  append __init__ (examples.on_field ["spec"]).

(** The reference of a cluster-scoped object, and a cluster whose
    configuration cannot be read. *)
Definition node_ref : events.ObjectReference :=
  {[ "kind" := "Node"; "name" := "node-1" ]}.

Definition unconfigured_cluster : events.Env :=
  {| events.utcnow_isoformat := "2019-01-28T18:25:03.000000";
     events.get_pykube_cfg_namespace := py.Raised examples.http_error;
     events.get_pykube_api := py.Returned ();
     events.create := λ _, py.Returned () |}.

(** A spy on the resources that carry no label [legacy]. *)
Definition spy_on_current : ResourceWatchingHandler :=
  {| watching_base :=
       {| id := "spy/current"; fn := 22%N;
          labels := Some [("legacy", filters.ABSENT)];
          annotations := None; when := None |} |}.

(** A label filter and the labels of a body. *)
Definition wanted_labels : filters.MetaFilter :=
  [("app", filters.Literal "web"); ("tier", filters.PRESENT);
   ("legacy", filters.ABSENT)].

Definition web_labels : gmap string string :=
  {[ "app" := "web"; "tier" := "front" ]}.

(** What an operator finds when both client libraries are installed. *)
Definition both_libraries : operator.Surroundings :=
  {| operator.pykube_importable := true;
     operator.kubernetes_importable := true;
     operator.login_via_pykube := 30%N;
     operator.login_via_client := 31%N |}.

Definition no_library : operator.Surroundings :=
  {| operator.pykube_importable := false;
     operator.kubernetes_importable := false;
     operator.login_via_pykube := 30%N;
     operator.login_via_client := 31%N |}.

(** Decorators at module level, with the default registry 40 and no
    handler being executed. *)
Definition LookupError : py.Exn :=
  py.mkExn ["LookupError"; "Exception"; "BaseException"; "object"]
           "<ContextVar name='subregistry_var'>".

Definition at_module_level : on.Surroundings :=
  {| on.default_registry := 40%N; on.subregistry := py.Raised LookupError |}.



Definition on_this : on.HandlerDecorator (Timeout := Z) :=
  on.this at_module_level (Some "task") None None.

(** A cluster that cannot be logged into, and one that can. *)
Definition LoginError : py.Exn :=
  py.mkExn ["kopf.clients.auth.LoginError"; "Exception"; "BaseException"; "object"]
           "Cannot authenticate".

Definition cluster (login : py.outcome unit) : cli.Env :=
  {| cli.login := login;
     cli.preload := λ _ _, py.Returned ();
     cli.running_run := λ _, py.Returned ();
     cli.detect_own_id := py.Returned "user@host/20190128182503/abc";
     cli.keepalive := λ _, py.Returned ();
     cli.disappear := λ _, py.Returned () |}.

End more_examples.

(** A handler serves an activity when its own activity is [None] or that
    activity. *)
Definition serves (requested : handlers.Activity)
    (handler : handlers.ActivityHandler) : bool :=
  bool_decide (handlers.activity handler = None) ||
  bool_decide (handlers.activity handler = Some requested).

(** * Properties *)

(** ** Deduplication *)

Section deduplication.
Import handlers registries.
Context {HandlerT : Type} `{BaseHandler HandlerT}.

Lemma _deduplicated_loop_calls (f : py.ObjectRef) (handlers : list HandlerT) :
  ∀ seen_ids : gset N,
    List.filter (calls f) (_deduplicated_loop seen_ids handlers) =
    if bool_decide (py.id f ∈ seen_ids) then []
    else take 1 (List.filter (calls f) handlers).
Proof.
  induction handlers as [|handler rest IH]; intros seen_ids; simpl.
  - by destruct (bool_decide (py.id f ∈ seen_ids)).
  - unfold calls at 2.
    destruct (decide (py.id (handler_fn handler) = py.id f)) as [Heq|Hne].
    + rewrite (bool_decide_eq_true_2 _ Heq), Heq.
      destruct (decide (py.id f ∈ seen_ids)) as [Hin|Hout].
      * rewrite (bool_decide_eq_true_2 _ Hin), IH.
        by rewrite (bool_decide_eq_true_2 _ Hin).
      * rewrite (bool_decide_eq_false_2 _ Hout). simpl.
        unfold calls at 1. rewrite (bool_decide_eq_true_2 _ Heq), IH.
        rewrite bool_decide_eq_true_2 by set_solver. done.
    + rewrite (bool_decide_eq_false_2 _ Hne).
      destruct (decide (py.id (handler_fn handler) ∈ seen_ids)) as [Hin|Hout].
      * by rewrite (bool_decide_eq_true_2 _ Hin), IH.
      * rewrite (bool_decide_eq_false_2 _ Hout). simpl.
        unfold calls at 1. rewrite (bool_decide_eq_false_2 _ Hne), IH.
        destruct (decide (py.id f ∈ seen_ids)) as [Hf|Hf].
        -- rewrite (bool_decide_eq_true_2 _ Hf).
           by rewrite bool_decide_eq_true_2 by set_solver.
        -- rewrite (bool_decide_eq_false_2 _ Hf).
           rewrite bool_decide_eq_false_2; [done|].
           rewrite elem_of_union, elem_of_singleton. intros [?|?]; by auto.
Qed.

Lemma _deduplicated_calls (f : py.ObjectRef) (handlers : list HandlerT) :
  List.filter (calls f) (_deduplicated handlers) =
  take 1 (List.filter (calls f) handlers).
Proof.
  unfold _deduplicated. rewrite _deduplicated_loop_calls.
  case_bool_decide; [set_solver | done].
Qed.

Lemma _deduplicated_loop_In (handler : HandlerT) (handlers : list HandlerT) :
  ∀ seen_ids : gset N,
    In handler (_deduplicated_loop seen_ids handlers) → In handler handlers.
Proof.
  induction handlers as [|h rest IH]; intros seen_ids; simpl; [done|].
  case_bool_decide; simpl; intros Hin.
  - right. by eapply IH.
  - destruct Hin as [-> | Hin]; [by left | right; by eapply IH].
Qed.

Lemma _deduplicated_In (handler : HandlerT) (handlers : list HandlerT) :
  In handler (_deduplicated handlers) → In handler handlers.
Proof. apply _deduplicated_loop_In. Qed.

Lemma filter_filter_calls (f : py.ObjectRef) (selected : HandlerT → bool)
    (handlers : list HandlerT) :
  List.filter (calls f) (List.filter selected handlers) =
  List.filter (λ handler, selected handler && calls f handler) handlers.
Proof.
  induction handlers as [|h rest IH]; simpl; [done|].
  destruct (selected h); simpl; [|done].
  destruct (calls f h); by rewrite IH.
Qed.

(** Of the selected records that share a callback, exactly the first
    survives the deduplication. *)
Lemma _deduplicated_keeps_first (f : py.ObjectRef) (selected : HandlerT → bool)
    (handlers : list HandlerT) (first : HandlerT) (others : list HandlerT) :
  List.filter (λ handler, selected handler && calls f handler) handlers
    = first :: others →
  List.filter (calls f) (_deduplicated (List.filter selected handlers)) = [first].
Proof.
  intros Hsel. by rewrite _deduplicated_calls, filter_filter_calls, Hsel.
Qed.

End deduplication.

(** C1. In each resource registry, when one callback is registered as
    several handler records and one or more of them are selected for the
    cause ([first :: others], in registration order), [get_handlers]
    returns exactly one record with that callback, the first-registered
    selected one. Records are compared by the identity of their callback;
    their handler ids play no role. *)
Theorem get_handlers_one_record_per_callback :
  (∀ (self : registries.GenericRegistry handlers.ResourceWatchingHandler)
     cause excluded f first others,
     List.filter (λ handler,
         registries.ResourceWatchingRegistry.yields cause excluded handler
         && calls f handler) (registries._handlers self) = first :: others →
     List.filter (calls f) (registries.get_handlers self cause excluded) = [first]) ∧
  (∀ (self : registries.GenericRegistry handlers.ResourceSpawningHandler)
     cause excluded f first others,
     List.filter (λ handler,
         registries.ResourceSpawningRegistry.yields cause excluded handler
         && calls f handler) (registries._handlers self) = first :: others →
     List.filter (calls f) (registries.get_handlers self cause excluded) = [first]) ∧
  (∀ (self : registries.GenericRegistry handlers.ResourceChangingHandler)
     cause excluded f first others,
     List.filter (λ handler,
         registries.ResourceChangingRegistry.yields cause
           (registries.ResourceChangingRegistry.changed_fields_of cause) excluded handler
         && calls f handler) (registries._handlers self) = first :: others →
     List.filter (calls f) (registries.get_handlers self cause excluded) = [first]).
Proof.
  split; [|split]; intros self cause excluded f first others Hsel;
    unfold registries.get_handlers, registries.iter_handlers;
    eapply _deduplicated_keeps_first; exact Hsel.
Qed.

(** The stacked creation and resume registrations of one function, on a
    resource created while the operator was down: both records are
    selected, and the first-registered one is returned alone. *)
Lemma get_handlers_one_record_per_callback_witness :
  List.filter (calls 7%N)
    (registries.get_handlers examples.stacked_registry examples.created_while_down ∅)
  = [examples.on_resume_fn].
Proof.
  apply (proj2 (proj2 get_handlers_one_record_per_callback)
           examples.stacked_registry examples.created_while_down ∅ 7%N
           examples.on_resume_fn [examples.on_create_fn]).
  vm_compute. reflexivity.
Defined.

(** ** Field scope *)

Section field_scope.
Import handlers registries.

Lemma slice_bound_of_nat (len n : nat) :
  py.slice_bound (Z.of_nat len) (Z.of_nat n) = Nat.min len n.
Proof.
  unfold py.slice_bound.
  destruct (Z.ltb_spec (Z.of_nat n) 0); lia.
Qed.

Lemma slice_to_of_nat {A} (l : list A) (n : nat) :
  py.slice_to l (Z.of_nat n) = take n l.
Proof.
  unfold py.slice_to. rewrite slice_bound_of_nat.
  destruct (Nat.le_ge_cases (length l) n) as [Hle|Hge].
  - rewrite Nat.min_l by done. by rewrite !take_ge.
  - by rewrite Nat.min_r.
Qed.

Lemma take_length_eq_prefix {A} (short long : list A) :
  take (length short) long = short ↔ short `prefix_of` long.
Proof.
  split.
  - intros Htake. exists (drop (length short) long).
    rewrite <- Htake at 1. by rewrite take_drop.
  - intros [rest ->]. by rewrite take_app_length.
Qed.

Lemma field_overlaps_prefix (field changed_field : dicts.FieldPath) :
  field_overlaps field changed_field = true ↔
  field `prefix_of` changed_field ∨ changed_field `prefix_of` field.
Proof.
  unfold field_overlaps.
  rewrite orb_true_iff, !bool_decide_eq_true, !slice_to_of_nat.
  rewrite take_length_eq_prefix.
  split; (intros [Hl|Hr]; [by left | right]).
  - by apply take_length_eq_prefix.
  - symmetry. by apply take_length_eq_prefix.
Qed.

End field_scope.

(** C2. A change-scoped handler with a (non-empty) field path [F] passes
    the field check against the changed fields [C], fields not being
    ignored, exactly when some path of [C] is a segment-wise prefix of
    [F] or [F] is a segment-wise prefix of it. *)
Theorem _matches_field_prefix_either_way
    (handler : handlers.ResourceChangingHandler) (F : dicts.FieldPath)
    (C : gset dicts.FieldPath) :
  handlers.field handler = Some F →
  F ≠ [] →
  registries._matches_field (handlers.Changing handler) C false = true ↔
  ∃ P, P ∈ C ∧ (P `prefix_of` F ∨ F `prefix_of` P).
Proof.
  intros Hfield Hnonempty. unfold registries._matches_field. simpl.
  rewrite Hfield. destruct F as [|segment F]; [done|].
  rewrite existsb_exists. split.
  - intros (P & Hin & Hov). exists P. split.
    + by apply elem_of_elements, list_elem_of_In.
    + apply field_overlaps_prefix in Hov. tauto.
  - intros (P & Hin & Hov). exists P. split.
    + by apply list_elem_of_In, elem_of_elements.
    + apply field_overlaps_prefix. tauto.
Qed.

(** A handler scoped to [spec.tasks] matches a change of
    [spec.tasks.0.name], and a handler scoped to [spec.tasks.0.name]
    matches a change of [spec.tasks]. *)
Lemma _matches_field_prefix_either_way_witness :
  registries._matches_field
    (handlers.Changing (examples.on_field examples.spec_tasks))
    {[ examples.spec_tasks_0_name ]} false = true ∧
  registries._matches_field
    (handlers.Changing (examples.on_field examples.spec_tasks_0_name))
    {[ examples.spec_tasks ]} false = true.
Proof.
  split.
  - apply (_matches_field_prefix_either_way
             (examples.on_field examples.spec_tasks) examples.spec_tasks
             {[ examples.spec_tasks_0_name ]}); [reflexivity | discriminate |].
    exists examples.spec_tasks_0_name. split; [by apply elem_of_singleton|].
    right. by exists ["0"; "name"].
  - apply (_matches_field_prefix_either_way
             (examples.on_field examples.spec_tasks_0_name) examples.spec_tasks_0_name
             {[ examples.spec_tasks ]}); [reflexivity | discriminate |].
    exists examples.spec_tasks. split; [by apply elem_of_singleton|].
    left. by exists ["0"; "name"].
Defined.

(** ** Activity handlers and their fallbacks *)

Section activity_fallback.
Import handlers registries registries.ActivityRegistry.

Lemma regular_loop_filter (activity : Activity) (handlers : list ActivityHandler) :
  ∀ found,
    regular_loop activity handlers found =
    (List.filter (is_regular activity) handlers,
     found || existsb (is_regular activity) handlers).
Proof.
  induction handlers as [|handler rest IH]; intros found; simpl.
  - by rewrite orb_false_r.
  - destruct (is_regular activity handler); simpl.
    + rewrite IH. simpl. by rewrite orb_true_r.
    + by rewrite IH.
Qed.

Lemma iter_handlers_filter (self : GenericRegistry ActivityHandler) activity :
  iter_handlers self activity =
  if existsb (is_regular activity) (_handlers self)
  then List.filter (is_regular activity) (_handlers self)
  else List.filter (is_fallback activity) (_handlers self).
Proof.
  unfold iter_handlers. rewrite regular_loop_filter. simpl.
  destruct (existsb (is_regular activity) (_handlers self)) eqn:Hex; simpl; [done|].
  assert (List.filter (is_regular activity) (_handlers self) = []) as ->; [|done].
  induction (_handlers self) as [|h rest IH]; simpl in *; [done|].
  apply orb_false_iff in Hex as [-> Hrest]. by apply IH.
Qed.

(** The two cases the spec spells out hold: a fallback and a user
    handler for the same activity, and the fallback alone. *)
Example get_handlers_prefers_user_login :
  get_handlers examples.user_and_builtin AUTHENTICATION = [examples.user_login].
Proof. reflexivity. Qed.

Example get_handlers_falls_back :
  get_handlers examples.builtin_only AUTHENTICATION = [examples.login_via_client].
Proof. reflexivity. Qed.

(** When every fallback-marked handler names its activity, fallbacks
    are yielded only if no regular handler matched. *)
Lemma get_handlers_fallback_deferred (self : GenericRegistry ActivityHandler)
    (requested : Activity) (handler : ActivityHandler) :
  (∀ h, h ∈ _handlers self → _fallback h = true → activity h ≠ None) →
  handler ∈ get_handlers self requested →
  (activity handler = None ∨ activity handler = Some requested) ∧
  (_fallback handler = true →
   ∀ h, h ∈ _handlers self → _fallback h = false →
        activity h ≠ None ∧ activity h ≠ Some requested).
Proof.
  intros Hscoped Hin. unfold get_handlers in Hin.
  apply list_elem_of_In, _deduplicated_In in Hin.
  rewrite iter_handlers_filter in Hin.
  destruct (existsb (is_regular requested) (_handlers self)) eqn:Hex;
    apply filter_In in Hin as [Hmem Hsel]; apply list_elem_of_In in Hmem.
  - unfold is_regular in Hsel.
    apply orb_true_iff in Hsel as [Hnone | Hsome].
    + apply bool_decide_eq_true in Hnone. split; [by left|].
      intros Hfb. by destruct (Hscoped handler Hmem Hfb).
    + apply andb_true_iff in Hsome as [Hact Hnfb].
      apply bool_decide_eq_true in Hact. split; [by right|].
      intros Hfb. rewrite Hfb in Hnfb. discriminate.
  - unfold is_fallback in Hsel. split.
    + apply orb_true_iff in Hsel as [Hnone | Hsome].
      * apply bool_decide_eq_true in Hnone. by left.
      * apply andb_true_iff in Hsome as [Hact _].
        apply bool_decide_eq_true in Hact. by right.
    + intros _ h Hh Hnfb.
      assert (is_regular requested h = false) as Hreg.
      { destruct (is_regular requested h) eqn:Hreg; [|done].
        assert (existsb (is_regular requested) (_handlers self) = true) as Habs.
        { apply existsb_exists. exists h. split; [by apply list_elem_of_In | done]. }
        congruence. }
      unfold is_regular in Hreg. rewrite Hnfb in Hreg. simpl in Hreg.
      rewrite andb_true_r in Hreg.
      apply orb_false_iff in Hreg as [Hn Hs].
      apply bool_decide_eq_false in Hn, Hs. done.
Qed.

End activity_fallback.

(** C3. A fallback-marked handler whose activity is [None] passes the
    first loop of [iter_handlers]: next to a matching regular handler it
    is returned as well. *)
Theorem get_handlers_returns_unscoped_fallback :
  registries.ActivityRegistry.get_handlers
    examples.user_and_fallback_for_all handlers.AUTHENTICATION
  = [examples.user_login; examples.fallback_for_all].
Proof. reflexivity. Qed.

(** ** Finalizers *)

Section finalizers.
Import handlers registries.

(** Both [requires_finalizer] loops have the same shape; one step of the
    induction over the handlers serves both. *)
Local Ltac requires_finalizer_step h IH :=
  let Hex := fresh "Hex" in
  let Hsel := fresh "Hsel" in
  let Hin := fresh "Hin" in
  let Hrest := fresh "Hrest" in
  let Hrf := fresh "Hrf" in
  let Hm := fresh "Hm" in
  let found := fresh "found" in
  match goal with
  | |- context [bool_decide (?i ∈ ?excluded)] =>
      destruct (decide (i ∈ excluded)) as [Hex|Hex];
      [ rewrite (bool_decide_eq_true_2 _ Hex); simpl; rewrite IH;
        split; intros (found & Hin & Hrest);
        [ exists found; split; [by apply list_elem_of_further | done]
        | apply elem_of_cons in Hin as [-> | Hin];
          [by destruct Hrest | eauto] ]
      | rewrite (bool_decide_eq_false_2 _ Hex); simpl;
        match goal with
        | |- context [if ?selected then true else _] =>
            destruct selected eqn:Hsel;
            [ apply andb_true_iff in Hsel as [Hrf Hm]; split; [|done];
              intros _; exists h; split; [by apply list_elem_of_here | done]
            | rewrite IH; split; intros (found & Hin & Hrest);
              [ exists found; split; [by apply list_elem_of_further | done]
              | apply elem_of_cons in Hin as [-> | Hin]; [|eauto];
                destruct Hrest as (_ & Hrf & Hm);
                rewrite Hrf, Hm in Hsel; discriminate ] ]
        end ]
  end.

Lemma spawning_requires_finalizer_loop_exists
    (handlers : list ResourceSpawningHandler) cause (excluded : gset HandlerId) :
  ResourceSpawningRegistry.requires_finalizer_loop handlers cause excluded = true ↔
  ∃ handler, handler ∈ handlers ∧
    (id (spawning_base handler) ∉ excluded) ∧
    py.truthy (spawning_requires_finalizer handler) = true ∧
    match_ (Spawning handler) (causation.Plain cause) ∅ false = true.
Proof.
  induction handlers as [|h rest IH]; simpl.
  - split; [done | intros (? & Hin & _); by apply elem_of_nil in Hin].
  - requires_finalizer_step h IH.
Qed.

Lemma changing_requires_finalizer_loop_exists
    (handlers : list ResourceChangingHandler) cause (excluded : gset HandlerId) :
  ResourceChangingRegistry.requires_finalizer_loop handlers cause excluded = true ↔
  ∃ handler, handler ∈ handlers ∧
    (id (changing_base handler) ∉ excluded) ∧
    py.truthy (requires_finalizer handler) = true ∧
    match_ (Changing handler) (causation.Changing cause) ∅ false = true.
Proof.
  induction handlers as [|h rest IH]; simpl.
  - split; [done | intros (? & Hin & _); by apply elem_of_nil in Hin].
  - requires_finalizer_step h IH.
Qed.

End finalizers.

(** C4. In a spawning and in a changing registry, [requires_finalizer]
    is true exactly when some registered handler whose id is not excluded
    declares [requires_finalizer] and matches the cause, the match being
    the call [match(handler=handler, cause=cause)] the method makes; for
    a registry without handlers it is false. *)
Theorem requires_finalizer_iff_some_handler :
  (∀ (self : registries.GenericRegistry handlers.ResourceSpawningHandler)
     cause (excluded : gset handlers.HandlerId),
     registries.ResourceSpawningRegistry.requires_finalizer self cause excluded = true ↔
     ∃ handler, handler ∈ registries._handlers self ∧
       (handlers.id (handlers.spawning_base handler) ∉ excluded) ∧
       py.truthy (handlers.spawning_requires_finalizer handler) = true ∧
       registries.match_ (handlers.Spawning handler) (causation.Plain cause) ∅ false
         = true) ∧
  (∀ (self : registries.GenericRegistry handlers.ResourceChangingHandler)
     cause (excluded : gset handlers.HandlerId),
     registries.ResourceChangingRegistry.requires_finalizer self cause excluded = true ↔
     ∃ handler, handler ∈ registries._handlers self ∧
       (handlers.id (handlers.changing_base handler) ∉ excluded) ∧
       py.truthy (handlers.requires_finalizer handler) = true ∧
       registries.match_ (handlers.Changing handler) (causation.Changing cause) ∅ false
         = true) ∧
  (∀ cause excluded,
     registries.ResourceSpawningRegistry.requires_finalizer
       registries.__init__ cause excluded = false) ∧
  (∀ cause excluded,
     registries.ResourceChangingRegistry.requires_finalizer
       registries.__init__ cause excluded = false).
Proof.
  split; [|split; [|split]].
  - intros self cause excluded. apply spawning_requires_finalizer_loop_exists.
  - intros self cause excluded. apply changing_requires_finalizer_loop_exists.
  - reflexivity.
  - reflexivity.
Qed.

(** ** Initial handlers and deletion *)

(** C5. In a changing registry, for a cause with [deleted] set, a handler
    marked [initial] that does not opt into deletion handling is not in
    the sequence [get_handlers] returns, whatever the cause's [initial]
    flag, reason and diff. *)
Theorem get_handlers_skips_initial_on_deletion
    (self : registries.GenericRegistry handlers.ResourceChangingHandler)
    (cause : causation.ResourceChangingCause)
    (excluded : gset handlers.HandlerId)
    (handler : handlers.ResourceChangingHandler) :
  causation.deleted cause = true →
  py.truthy (handlers.initial handler) = true →
  py.truthy (handlers.deleted handler) = false →
  handler ∉ registries.get_handlers self cause excluded.
Proof.
  intros Hdeleted Hinitial Hoptin Hin.
  unfold registries.get_handlers, registries.iter_handlers,
    registries.ResourceChangingRegistry_registry,
    registries.ResourceChangingRegistry.iter_handlers in Hin.
  apply list_elem_of_In, _deduplicated_In, filter_In in Hin as [_ Hyields].
  unfold registries.ResourceChangingRegistry.yields in Hyields.
  rewrite Hdeleted, Hinitial, Hoptin in Hyields. simpl in Hyields.
  destruct (negb (bool_decide (handlers.id (handlers.changing_base handler) ∈ excluded)));
    [|discriminate].
  destruct (bool_decide (handlers.reason handler = None)
            || bool_decide (handlers.reason handler = Some (causation.reason cause)));
    [|discriminate].
  destruct (negb (causation.initial cause)); discriminate.
Qed.

(** The resume handler of the stacked registration is not returned for
    the resource seen again while it is being deleted. *)
Lemma get_handlers_skips_initial_on_deletion_witness :
  examples.on_resume_fn ∉
    registries.get_handlers examples.stacked_registry examples.deleted_on_resume ∅.
Proof.
  apply (get_handlers_skips_initial_on_deletion
           examples.stacked_registry examples.deleted_on_resume ∅
           examples.on_resume_fn); reflexivity.
Defined.

(** ** [requires_finalizer] against [get_handlers] in a changing registry *)

(** C9 as stated fails for a field-scoped handler: one that declares
    [requires_finalizer], is not excluded and has no label, annotation or
    [when] filter does not make [requires_finalizer] true, not even for a cause whose diff changes
    that very field: the method matches against no changed fields. *)
Lemma requires_finalizer_misses_field_scoped :
  examples.on_field_with_finalizer ∈
    registries._handlers examples.finalizing_field_registry ∧
  (handlers.id (handlers.changing_base examples.on_field_with_finalizer)
     ∉ (∅ : gset handlers.HandlerId)) ∧
  py.truthy (handlers.requires_finalizer examples.on_field_with_finalizer) = true ∧
  registries._matches_labels
    (handlers.Changing examples.on_field_with_finalizer)
    (causation.Changing examples.spec_changed) = true ∧
  registries._matches_annotations
    (handlers.Changing examples.on_field_with_finalizer)
    (causation.Changing examples.spec_changed) = true ∧
  registries._matches_filter_callback
    (handlers.Changing examples.on_field_with_finalizer)
    (causation.Changing examples.spec_changed) = true ∧
  registries.ResourceChangingRegistry.requires_finalizer
    examples.finalizing_field_registry examples.spec_changed ∅ = false ∧
  registries.get_handlers examples.finalizing_field_registry examples.spec_changed ∅
    = [examples.on_field_with_finalizer].
Proof.
  repeat split; try reflexivity.
  - apply list_elem_of_here.
  - apply not_elem_of_empty.
Qed.

(** C9, amended. In a changing registry, a handler that is not excluded,
    declares [requires_finalizer], has no field scope and passes its
    label, annotation and [when] filters makes [requires_finalizer] true
    for every cause: neither the handler's reason nor its [initial] and
    [deleted] marks nor the cause's diff are consulted. *)
Theorem requires_finalizer_without_gating
    (self : registries.GenericRegistry handlers.ResourceChangingHandler)
    (cause : causation.ResourceChangingCause)
    (excluded : gset handlers.HandlerId)
    (handler : handlers.ResourceChangingHandler) :
  handler ∈ registries._handlers self →
  handlers.id (handlers.changing_base handler) ∉ excluded →
  py.truthy (handlers.requires_finalizer handler) = true →
  registries.ResourceChangingRegistry.has_field handler = false →
  registries._matches_labels
    (handlers.Changing handler) (causation.Changing cause) = true →
  registries._matches_annotations
    (handlers.Changing handler) (causation.Changing cause) = true →
  registries._matches_filter_callback
    (handlers.Changing handler) (causation.Changing cause) = true →
  registries.ResourceChangingRegistry.requires_finalizer self cause excluded = true.
Proof.
  intros Hin Hnex Hrf Hfield Hlabels Hannotations Hwhen.
  apply changing_requires_finalizer_loop_exists.
  exists handler. repeat split; try done.
  unfold registries.match_. simpl. rewrite Hlabels, Hannotations, Hwhen.
  unfold registries.ResourceChangingRegistry.has_field in Hfield.
  by destruct (handlers.field handler) as [[|]|].
Qed.

(** The deletion handler of the stacked registry against a creation
    cause: [requires_finalizer] is true although [get_handlers] does not
    return the handler. *)
Lemma requires_finalizer_without_gating_witness :
  registries.ResourceChangingRegistry.requires_finalizer
    examples.stacked_registry examples.created_while_down ∅ = true ∧
  examples.on_delete_gn ∉
    registries.get_handlers examples.stacked_registry examples.created_while_down ∅.
Proof.
  split.
  - apply (requires_finalizer_without_gating
             examples.stacked_registry examples.created_while_down ∅
             examples.on_delete_gn); try reflexivity.
    + vm_compute. do 2 apply list_elem_of_further. apply list_elem_of_here.
    + apply not_elem_of_empty.
  - assert (registries.get_handlers
              examples.stacked_registry examples.created_while_down ∅
            = [examples.on_resume_fn]) as -> by reflexivity.
    intros Hin. apply list_elem_of_singleton in Hin. discriminate Hin.
Defined.

(** ** Event messages *)

Section strings.

Lemma string_app_cons (c : ascii) (s1 s2 : string) :
  String c s1 +:+ s2 = String c (s1 +:+ s2).
Proof. reflexivity. Qed.

Lemma string_app_nil_l (s : string) : EmptyString +:+ s = s.
Proof. reflexivity. Qed.

Lemma string_of_list_ascii_app (l1 l2 : list ascii) :
  string_of_list_ascii (l1 ++ l2) =
  string_of_list_ascii l1 +:+ string_of_list_ascii l2.
Proof.
  induction l1 as [|c l1 IH]; simpl; [done|].
  by rewrite string_app_cons, IH.
Qed.

Lemma length_string_of_list_ascii (l : list ascii) :
  String.length (string_of_list_ascii l) = length l.
Proof. induction l as [|c l IH]; simpl; [done | by rewrite IH]. Qed.

Lemma length_list_ascii_of_string (s : string) :
  length (list_ascii_of_string s) = String.length s.
Proof. induction s as [|c s IH]; simpl; [done | by rewrite IH]. Qed.

Lemma string_length_app (s1 s2 : string) :
  String.length (s1 +:+ s2) = String.length s1 + String.length s2.
Proof.
  induction s1 as [|c s1 IH]; [done|].
  rewrite string_app_cons. simpl. by rewrite IH.
Qed.

Lemma string_app_assoc (s1 s2 s3 : string) :
  (s1 +:+ s2) +:+ s3 = s1 +:+ s2 +:+ s3.
Proof.
  induction s1 as [|c s1 IH]; [done|].
  by rewrite !string_app_cons, IH.
Qed.

Lemma string_app_nil_r (s : string) : s +:+ EmptyString = s.
Proof.
  induction s as [|c s IH]; [done|].
  by rewrite string_app_cons, IH.
Qed.

Lemma slice_from_negative {A} (l : list A) (k : nat) :
  0 < k ≤ length l →
  py.slice_from l (- Z.of_nat k) = drop (length l - k) l.
Proof.
  intros [Hpos Hle]. unfold py.slice_from, py.slice_bound.
  destruct (Z.ltb_spec (- Z.of_nat k) 0) as [_|Hge]; [|lia].
  f_equal. lia.
Qed.

End strings.

(** C6. A message longer than 1024 characters is replaced by its first
    511 characters, the marker ["..."] and its last 510 characters, 1024
    characters in all, with the marker in the middle; a message of at
    most 1024 characters is kept as it is; and the message [post_event]
    hands over for creation is the result of this shortening. *)
Theorem post_event_caps_message (env : events.Env) (ref : events.ObjectReference)
    (type reason message : string) :
  (String.length message > 1024 →
   ∃ head middle tail,
     message = head +:+ middle +:+ tail ∧
     String.length head = 511 ∧
     String.length tail = 510 ∧
     events.shorten message = head +:+ "..." +:+ tail ∧
     String.length (events.shorten message) = 1024) ∧
  (String.length message ≤ 1024 → events.shorten message = message) ∧
  (∀ namespace,
     events.resolve_namespace env ref = py.Returned namespace →
     events.get_pykube_api env = py.Returned () →
     ∃ body rest,
       snd (events.post_event env ref type reason message)
         = events.Submitted body :: rest ∧
       events.message body = events.shorten message).
Proof.
  split; [|split].
  - intros Hlong. unfold events.shorten.
    assert ((py.len message >? events.MAX_MESSAGE_LENGTH)%Z = true) as ->.
    { apply Z.gtb_lt. unfold py.len, events.MAX_MESSAGE_LENGTH. lia. }
    set (l := list_ascii_of_string message).
    assert (length l = String.length message) as Hlen
      by apply length_list_ascii_of_string.
    exists (string_of_list_ascii (take 511 l)),
           (string_of_list_ascii (take (length l - 1021) (drop 511 l))),
           (string_of_list_ascii (drop (length l - 510) l)).
    assert (py.str_slice_to message
              (events.MAX_MESSAGE_LENGTH / 2 - py.len events.CUT_MESSAGE_INFIX / 2)%Z
            = string_of_list_ascii (take 511 l)) as ->.
    { unfold py.str_slice_to. fold l. f_equal.
      change (events.MAX_MESSAGE_LENGTH / 2 - py.len events.CUT_MESSAGE_INFIX / 2)%Z
        with (Z.of_nat 511).
      apply slice_to_of_nat. }
    assert (py.str_slice_from message
              (- events.MAX_MESSAGE_LENGTH / 2
               + (py.len events.CUT_MESSAGE_INFIX - py.len events.CUT_MESSAGE_INFIX / 2))%Z
            = string_of_list_ascii (drop (length l - 510) l)) as ->.
    { unfold py.str_slice_from. fold l. f_equal.
      change (- events.MAX_MESSAGE_LENGTH / 2
              + (py.len events.CUT_MESSAGE_INFIX - py.len events.CUT_MESSAGE_INFIX / 2))%Z
        with (- Z.of_nat 510)%Z.
      apply slice_from_negative. lia. }
    split; [|split; [|split; [|split]]].
    + rewrite <- !string_of_list_ascii_app.
      rewrite <- (string_of_list_ascii_of_string message) at 1. fold l. f_equal.
      replace (length l - 510) with (511 + (length l - 1021)) by lia.
      rewrite <- drop_drop, take_drop. by rewrite take_drop.
    + rewrite length_string_of_list_ascii, length_take. lia.
    + rewrite length_string_of_list_ascii, length_drop. lia.
    + done.
    + rewrite !string_length_app, !length_string_of_list_ascii,
        length_take, length_drop.
      change (String.length events.CUT_MESSAGE_INFIX) with 3. lia.
  - intros Hshort. unfold events.shorten.
    assert ((py.len message >? events.MAX_MESSAGE_LENGTH)%Z = false) as ->; [|done].
    rewrite Z.gtb_ltb. apply Z.ltb_ge. unfold py.len, events.MAX_MESSAGE_LENGTH. lia.
  - intros namespace Hns Hapi. unfold events.post_event.
    rewrite Hns, Hapi. simpl.
    destruct (events.create env _) as [[]|e]; simpl.
    + eexists _, _. split; reflexivity.
    + destruct (py.isinstance e "requests.exceptions.HTTPError" || _); simpl;
        eexists _, _; split; reflexivity.
Qed.

(** A message of 2000 characters is cut to 1024 characters, and the cut
    message is what is handed over for creation. *)
Lemma post_event_caps_message_witness :
  String.length examples.long_message > 1024 ∧
  (∃ head middle tail,
     examples.long_message = head +:+ middle +:+ tail ∧
     String.length head = 511 ∧
     String.length tail = 510 ∧
     events.shorten examples.long_message = head +:+ "..." +:+ tail ∧
     String.length (events.shorten examples.long_message) = 1024) ∧
  (∃ body rest,
     snd (events.post_event (examples.cluster_answering (py.Returned ()))
            examples.pod_ref "Normal" "Created" examples.long_message)
       = events.Submitted body :: rest ∧
     events.message body = events.shorten examples.long_message).
Proof.
  assert (String.length examples.long_message > 1024) as Hlong
    by (vm_compute; lia).
  pose proof (post_event_caps_message
                (examples.cluster_answering (py.Returned ()))
                examples.pod_ref "Normal" "Created" examples.long_message)
    as (Hcut & _ & Hposted).
  split; [exact Hlong|]. split; [exact (Hcut Hlong)|].
  apply (Hposted "default"); reflexivity.
Defined.

(** ** Failures of event posting *)

(** C7 as stated fails for an error that is not an HTTP error: a refused
    connection while the event is created is raised by [post_event] to
    its caller, and nothing is logged. *)
Lemma post_event_raises_connection_error :
  events.post_event
    (examples.cluster_answering (py.Raised examples.connection_error))
    examples.pod_ref "Normal" "Created" "Handler succeeded."
  = (py.Raised examples.connection_error,
     [events.Submitted
        (events.event_body "2019-01-28T18:25:03.000000" "default"
           "Normal" "Created" "Handler succeeded." examples.pod_ref)]).
Proof. vm_compute. reflexivity. Qed.

(** What [post_event] raises is raised by the namespace lookup before the
    guarded block, or is not an HTTP error. *)
Lemma post_event_raises_only (env : events.Env) (ref : events.ObjectReference)
    (type reason message : string) (e : py.Exn) :
  fst (events.post_event env ref type reason message) = py.Raised e →
  events.resolve_namespace env ref = py.Raised e ∨ is_http_error e = false.
Proof.
  unfold events.post_event, is_http_error.
  destruct (events.resolve_namespace env ref) as [namespace|e0]; simpl.
  - destruct (events.get_pykube_api env) as [[]|e1]; simpl.
    + destruct (events.create env _) as [[]|e2]; simpl; [done|].
      rewrite orb_false_r.
      destruct (py.isinstance e2 _ || _) eqn:Hhttp; simpl; [done|].
      intros [= ->]. by right.
    + rewrite orb_false_r.
      destruct (py.isinstance e1 _ || _) eqn:Hhttp; simpl; [done|].
      intros [= ->]. by right.
  - intros [= ->]. by left.
Qed.

(** C7, amended. An HTTP error ([requests.exceptions.HTTPError] or
    [pykube.exceptions.HTTPError], or a subclass) raised while the API
    client is obtained or the event is created is caught, logged as a
    warning and discarded: [post_event] returns to its caller. *)
Theorem post_event_swallows_http_errors (env : events.Env)
    (ref : events.ObjectReference) (type reason message namespace : string)
    (e : py.Exn) :
  events.resolve_namespace env ref = py.Returned namespace →
  is_http_error e = true →
  (events.get_pykube_api env = py.Raised e ∨
   (events.get_pykube_api env = py.Returned () ∧
    events.create env
      (events.event_body (events.utcnow_isoformat env) namespace type reason
         (events.shorten message) (<["namespace" := namespace]> ref))
    = py.Raised e)) →
  fst (events.post_event env ref type reason message) = py.Returned () ∧
  last (snd (events.post_event env ref type reason message))
    = Some (events.LoggedWarning e type reason (events.shorten message)).
Proof.
  intros Hns Hhttp Hfail. unfold events.post_event, is_http_error in *.
  rewrite Hns. simpl.
  destruct Hfail as [Hapi | [Hapi Hcreate]]; rewrite Hapi; simpl.
  - rewrite orb_false_r, Hhttp. done.
  - rewrite Hcreate. rewrite orb_false_r, Hhttp. done.
Qed.

(** An HTTP error answer to the creation of the event. *)
Lemma post_event_swallows_http_errors_witness :
  fst (events.post_event
         (examples.cluster_answering (py.Raised examples.http_error))
         examples.pod_ref "Normal" "Created" "Handler succeeded.")
    = py.Returned () ∧
  last (snd (events.post_event
               (examples.cluster_answering (py.Raised examples.http_error))
               examples.pod_ref "Normal" "Created" "Handler succeeded."))
    = Some (events.LoggedWarning examples.http_error "Normal" "Created"
              (events.shorten "Handler succeeded.")).
Proof.
  apply (post_event_swallows_http_errors
           (examples.cluster_answering (py.Raised examples.http_error))
           examples.pod_ref "Normal" "Created" "Handler succeeded." "default"
           examples.http_error).
  - reflexivity.
  - reflexivity.
  - right. split; reflexivity.
Defined.

(** ** Identifier derivation *)

Section identifiers.
Import callables py registries.

Lemma get_callable_id_innermost (c : PyObject) :
  get_callable_id c = get_callable_id (innermost c).
Proof. induction c; simpl; done. Qed.

Lemma innermost_no_layer (c : PyObject) :
  (∀ func, innermost c ≠ Partial func) ∧
  (∀ wrapped, innermost c ≠ Wrapper wrapped).
Proof. induction c; simpl; try done; split; discriminate. Qed.

Lemma get_callable_id_raises_iff (c : PyObject) :
  (∃ e, get_callable_id c = Raised e) ↔ has_derivable_identity c = false.
Proof.
  unfold has_derivable_identity. rewrite get_callable_id_innermost.
  destruct (innermost_no_layer c) as [Hpartial Hwrapper].
  destruct (innermost c) as [|func|wrapped|name qualname path line| |]; simpl.
  - split; [done | eauto].
  - by destruct (Hpartial func).
  - by destruct (Hwrapper wrapped).
  - split; [|done]. intros [e He]. by destruct (bool_decide (name = "<lambda>")).
  - split; [|done]. intros [e He]. discriminate.
  - split; [done | eauto].
Qed.

Lemma composition_composed (prefix suffix : option string) (real_id : string) :
  (let real_id :=
     if negb (str_truthy suffix) then real_id
     else real_id +:+ "/" +:+ default EmptyString suffix in
   if negb (str_truthy prefix) then real_id
   else default EmptyString prefix +:+ "/" +:+ real_id)
  = composed prefix real_id suffix.
Proof.
  unfold composed, leading, trailing, str_truthy.
  destruct prefix as [prefix|], suffix as [suffix|]; simpl;
    repeat case_bool_decide; simpl;
    rewrite ?string_app_nil_l, ?string_app_nil_r, ?string_app_assoc; done.
Qed.

Lemma generate_id_composed (fn : PyObject) (id prefix suffix : option string) :
  generate_id fn id prefix suffix =
  match id with
  | Some id => Returned (composed prefix id suffix)
  | None =>
      match get_callable_id fn with
      | Returned derived => Returned (composed prefix derived suffix)
      | Raised e => Raised e
      end
  end.
Proof.
  unfold generate_id. destruct id as [id|]; simpl.
  - f_equal. apply composition_composed.
  - destruct (get_callable_id fn) as [derived|e]; simpl; [|done].
    f_equal. apply composition_composed.
Qed.

End identifiers.

(** C8. [generate_id] raises exactly when it is given no explicit id and
    a value from which no identity can be derived: [None], or an object
    that, under its [functools.partial] and [__wrapped__] layers, is
    neither a function nor a method. Otherwise it returns an id: composed
    from the explicit id when there is one; else, for a lambda, from
    ['lambda:<path>:<line>'] of its code; else from the qualified name of
    the function or method. *)
Theorem generate_id_raises_iff_nothing_derivable
    (fn : callables.PyObject) (id prefix suffix : option string) :
  ((∃ e, registries.generate_id fn id prefix suffix = py.Raised e) ↔
   id = None ∧ has_derivable_identity fn = false) ∧
  (∀ explicit, id = Some explicit →
     registries.generate_id fn id prefix suffix
       = py.Returned (composed prefix explicit suffix)) ∧
  (∀ name qualname path line,
     id = None →
     innermost fn = callables.Function name qualname path line →
     registries.generate_id fn id prefix suffix
       = py.Returned
           (composed prefix
              (if bool_decide (name = "<lambda>")
               then "lambda:" +:+ path +:+ ":" +:+ pretty line
               else qualname)
              suffix)) ∧
  (∀ qualname name repr,
     id = None →
     innermost fn = callables.Method (Some qualname) name repr →
     registries.generate_id fn id prefix suffix
       = py.Returned (composed prefix qualname suffix)).
Proof.
  rewrite generate_id_composed. split; [split|split; [|split]].
  - intros [e He]. destruct id as [explicit|]; [discriminate|].
    split; [done|]. apply get_callable_id_raises_iff.
    destruct (registries.get_callable_id fn) as [derived|e0]; [discriminate | eauto].
  - intros [-> Hnone]. apply get_callable_id_raises_iff in Hnone as [e He].
    exists e. by rewrite He.
  - intros explicit ->. done.
  - intros name qualname path line -> Hin.
    rewrite get_callable_id_innermost, Hin. simpl.
    by destruct (bool_decide (name = "<lambda>")).
  - intros qualname name repr -> Hin.
    by rewrite get_callable_id_innermost, Hin.
Qed.

(** A lambda under a [functools.partial] gets its id from its code
    location; an object that is no function has none to give. *)
Lemma generate_id_raises_iff_nothing_derivable_witness :
  registries.generate_id
    (callables.Partial
       (callables.Function "<lambda>" "create.<locals>.<lambda>" "/app/handlers.py" 12))
    None (Some "create") None
  = py.Returned "create/lambda:/app/handlers.py:12" ∧
  ∃ e, registries.generate_id (callables.Partial (callables.Other "<Task object>"))
         None (Some "create") None = py.Raised e.
Proof.
  split.
  - apply (proj1 (proj2 (proj2 (generate_id_raises_iff_nothing_derivable
             (callables.Partial
                (callables.Function "<lambda>" "create.<locals>.<lambda>"
                   "/app/handlers.py" 12))
             None (Some "create") None)))
           "<lambda>" "create.<locals>.<lambda>" "/app/handlers.py" 12%Z);
      reflexivity.
  - apply (proj1 (generate_id_raises_iff_nothing_derivable
             (callables.Partial (callables.Other "<Task object>"))
             None (Some "create") None)).
    split; reflexivity.
Defined.

(** C10. With an explicit id, [generate_id] returns the composition
    [prefix/id/suffix], a prefix or suffix that is [None] or empty being
    left out, whatever [fn] is, [None] included; it never raises. The id
    itself is kept as given; when it is not empty, the result is the
    non-empty segments joined by slashes. *)
Theorem generate_id_explicit_ignores_fn
    (fn : callables.PyObject) (id : string) (prefix suffix : option string) :
  registries.generate_id fn (Some id) prefix suffix
    = py.Returned (composed prefix id suffix) ∧
  registries.generate_id fn (Some id) prefix suffix
    = registries.generate_id callables.PyNone (Some id) prefix suffix ∧
  (id ≠ EmptyString →
   composed prefix id suffix = joined (non_empty [prefix; Some id; suffix])).
Proof.
  rewrite !generate_id_composed. split; [done|]. split; [done|].
  intros Hid. unfold composed, leading, trailing, non_empty.
  destruct prefix as [prefix|], suffix as [suffix|]; simpl;
    repeat case_bool_decide; simpl;
    rewrite ?string_app_nil_l, ?string_app_nil_r, ?string_app_assoc;
    try done.
Qed.

(** A sub-handler id under its parent's, with no callable at all. *)
Lemma generate_id_explicit_ignores_fn_witness :
  registries.generate_id callables.PyNone (Some "task_abc") (Some "create") (Some EmptyString)
  = py.Returned "create/task_abc" ∧
  composed (Some "create") "task_abc" (Some EmptyString)
  = joined (non_empty [Some "create"; Some "task_abc"; Some EmptyString]).
Proof.
  pose proof (generate_id_explicit_ignores_fn
                callables.PyNone "task_abc" (Some "create") (Some EmptyString))
    as (Hid & _ & Hjoined).
  split; [exact Hid|]. apply Hjoined. discriminate.
Defined.

(** * Further properties of the registries *)

Section deduplication_invariants.
Import handlers registries.
Context {HandlerT : Type} {base : BaseHandler HandlerT}.

Lemma _deduplicated_loop_fresh (handlers : list HandlerT) :
  ∀ (seen_ids : gset N) handler,
    handler ∈ _deduplicated_loop seen_ids handlers →
    callback_of handler ∉ seen_ids.
Proof.
  induction handlers as [|h rest IH]; intros seen_ids handler; simpl.
  - intros Hin. by apply elem_of_nil in Hin.
  - case_bool_decide as Hseen.
    + apply IH.
    + intros [-> | Hin]%elem_of_cons; [done|].
      apply IH in Hin. intros Habs. apply Hin.
      apply elem_of_union. by right.
Qed.

Lemma _deduplicated_loop_NoDup (handlers : list HandlerT) :
  ∀ seen_ids : gset N,
    NoDup (callback_of <$> _deduplicated_loop seen_ids handlers).
Proof.
  induction handlers as [|h rest IH]; intros seen_ids; simpl.
  - constructor.
  - case_bool_decide as Hseen; [apply IH|].
    rewrite fmap_cons. constructor; [|apply IH].
    intros (handler & Heq & Hin)%list_elem_of_fmap.
    apply _deduplicated_loop_fresh in Hin. apply Hin.
    apply elem_of_union. left. apply elem_of_singleton. by symmetry.
Qed.

Lemma _deduplicated_loop_sublist (handlers : list HandlerT) :
  ∀ seen_ids : gset N,
    _deduplicated_loop seen_ids handlers `sublist_of` handlers.
Proof.
  induction handlers as [|h rest IH]; intros seen_ids; simpl; [done|].
  case_bool_decide; [by apply sublist_cons | by apply sublist_skip].
Qed.

Lemma _deduplicated_loop_distinct (handlers : list HandlerT) :
  ∀ seen_ids : gset N,
    NoDup (callback_of <$> handlers) →
    (∀ handler, handler ∈ handlers → callback_of handler ∉ seen_ids) →
    _deduplicated_loop seen_ids handlers = handlers.
Proof.
  induction handlers as [|h rest IH]; intros seen_ids Hnodup Hfresh; simpl; [done|].
  rewrite fmap_cons in Hnodup. apply NoDup_cons in Hnodup as [Hh Hrest].
  rewrite bool_decide_eq_false_2 by (apply Hfresh, list_elem_of_here).
  f_equal. apply IH; [done|].
  intros handler Hin [Heq%elem_of_singleton | Hseen]%elem_of_union.
  - apply Hh. apply list_elem_of_fmap. exists handler. by split.
  - by apply (Hfresh handler); [apply list_elem_of_further|].
Qed.

(** What a single further candidate adds to a deduplicated sequence. *)
Lemma _deduplicated_loop_snoc (handlers : list HandlerT) (last : HandlerT) :
  ∀ seen_ids : gset N,
    _deduplicated_loop seen_ids (handlers ++ [last]) =
    _deduplicated_loop seen_ids handlers ++
    if bool_decide (callback_of last ∈ seen_ids ∨
                    callback_of last ∈ callback_of <$> handlers)
    then [] else [last].
Proof.
  induction handlers as [|h rest IH]; intros seen_ids; simpl.
  - destruct (decide (callback_of last ∈ seen_ids)) as [Hin|Hout].
    + rewrite (bool_decide_eq_true_2 _ Hin).
      by rewrite bool_decide_eq_true_2 by (by left).
    + rewrite (bool_decide_eq_false_2 _ Hout).
      rewrite bool_decide_eq_false_2; [done|].
      intros [?|Hnil]; [done | by apply elem_of_nil in Hnil].
  - destruct (decide (callback_of h ∈ seen_ids)) as [Hin|Hout].
    + rewrite (bool_decide_eq_true_2 _ Hin), IH. f_equal.
      erewrite bool_decide_ext; [reflexivity|].
      change (list_fmap HandlerT N callback_of rest) with (callback_of <$> rest).
      rewrite elem_of_cons.
      split; [tauto|]. intros [?|[Heq|?]]; [tauto| |tauto].
      left. by rewrite Heq.
    + rewrite (bool_decide_eq_false_2 _ Hout), IH. simpl. do 2 f_equal.
      erewrite bool_decide_ext; [reflexivity|].
      change (list_fmap HandlerT N callback_of rest) with (callback_of <$> rest).
      rewrite elem_of_union, elem_of_singleton, elem_of_cons. tauto.
Qed.

End deduplication_invariants.

(** X1. The deduplicated sequence holds no two records with the same
    callback, keeps the order of the candidates, and keeps a record for
    every callback that occurs among them. *)
Theorem _deduplicated_distinct_ordered_complete {HandlerT : Type}
    {base : handlers.BaseHandler HandlerT} (handlers : list HandlerT) :
  NoDup (callback_of <$> registries._deduplicated handlers) ∧
  registries._deduplicated handlers `sublist_of` handlers ∧
  (∀ handler, handler ∈ handlers →
     ∃ kept, kept ∈ registries._deduplicated handlers ∧
             callback_of kept = callback_of handler).
Proof.
  split; [apply _deduplicated_loop_NoDup|]. split; [apply _deduplicated_loop_sublist|].
  intros handler Hin.
  pose proof (_deduplicated_calls (handlers.handler_fn handler) handlers) as Hfirst.
  assert (In handler (List.filter (calls (handlers.handler_fn handler)) handlers)) as Hsel.
  { apply filter_In. split; [by apply list_elem_of_In|].
    unfold calls. by apply bool_decide_eq_true_2. }
  destruct (List.filter (calls (handlers.handler_fn handler)) handlers)
    as [|kept others]; [done|].
  simpl in Hfirst. exists kept.
  assert (In kept (List.filter (calls (handlers.handler_fn handler))
                     (registries._deduplicated handlers))) as Hkept
    by (rewrite Hfirst; by left).
  apply filter_In in Hkept as [Hmem Hcalls].
  split; [by apply list_elem_of_In|].
  unfold calls in Hcalls. by apply bool_decide_eq_true in Hcalls.
Qed.

(** X2. Candidates whose callbacks are pairwise distinct pass the
    deduplication unchanged; so deduplicating twice is deduplicating
    once. *)
Theorem _deduplicated_idempotent {HandlerT : Type}
    {base : handlers.BaseHandler HandlerT} (handlers : list HandlerT) :
  (NoDup (callback_of <$> handlers) → registries._deduplicated handlers = handlers) ∧
  registries._deduplicated (registries._deduplicated handlers)
    = registries._deduplicated handlers.
Proof.
  assert (∀ l : list HandlerT,
            NoDup (callback_of <$> l) → registries._deduplicated l = l) as Hdistinct.
  { intros l Hnodup. apply _deduplicated_loop_distinct; [done|].
    intros ? _. apply not_elem_of_empty. }
  split; [apply Hdistinct|].
  apply Hdistinct, _deduplicated_loop_NoDup.
Qed.

(** Two registrations under different ids with different callbacks both
    stay. *)
Lemma _deduplicated_idempotent_witness :
  registries._deduplicated [examples.on_create_fn; examples.on_delete_gn]
  = [examples.on_create_fn; examples.on_delete_gn].
Proof.
  apply (proj1 (_deduplicated_idempotent
                  [examples.on_create_fn; examples.on_delete_gn])).
  apply (bool_decide_unpack _). vm_compute. exact I.
Defined.

Section lookup_invariants.
Import handlers registries.
Context {HandlerT : Type} {base : BaseHandler HandlerT}.

Lemma List_filter_sublist {A} (keep : A → bool) (l : list A) :
  List.filter keep l `sublist_of` l.
Proof.
  induction l as [|x l IH]; simpl; [done|].
  destruct (keep x); [by apply sublist_skip | by apply sublist_cons].
Qed.

Lemma _deduplicated_callbacks (handlers : list HandlerT) (callback : N) :
  callback ∈ callback_of <$> _deduplicated handlers ↔
  callback ∈ callback_of <$> handlers.
Proof.
  rewrite !list_elem_of_fmap. split.
  - intros (kept & -> & Hin). exists kept. split; [done|].
    by apply list_elem_of_In, _deduplicated_In, list_elem_of_In.
  - intros (handler & -> & Hin).
    pose proof (_deduplicated_calls (handler_fn handler) handlers) as Hfirst.
    assert (In handler (List.filter (calls (handler_fn handler)) handlers)) as Hsel.
    { apply filter_In. split; [by apply list_elem_of_In|].
      unfold calls. by apply bool_decide_eq_true_2. }
    destruct (List.filter (calls (handler_fn handler)) handlers)
      as [|kept others]; [done|].
    simpl in Hfirst. exists kept.
    assert (In kept (List.filter (calls (handler_fn handler))
                       (_deduplicated handlers))) as Hkept
      by (rewrite Hfirst; by left).
    apply filter_In in Hkept as [Hmem Hcalls].
    unfold calls in Hcalls. apply bool_decide_eq_true in Hcalls.
    split; [by symmetry | by apply list_elem_of_In].
Qed.

(** A lookup that filters the registered handlers and deduplicates the
    result. *)
Lemma selected_sublist (selected : HandlerT → bool) (handlers : list HandlerT) :
  _deduplicated (List.filter selected handlers) `sublist_of` handlers.
Proof.
  etrans; [apply _deduplicated_loop_sublist | apply List_filter_sublist].
Qed.

Lemma selected_elem (selected : HandlerT → bool) (handlers : list HandlerT)
    (handler : HandlerT) :
  handler ∈ _deduplicated (List.filter selected handlers) →
  handler ∈ handlers ∧ selected handler = true.
Proof.
  intros Hin. apply list_elem_of_In, _deduplicated_In, filter_In in Hin as [Hmem Hsel].
  split; [by apply list_elem_of_In | done].
Qed.

Lemma selected_snoc (selected : HandlerT → bool) (handlers : list HandlerT)
    (last : HandlerT) :
  _deduplicated (List.filter selected (handlers ++ [last])) =
  _deduplicated (List.filter selected handlers) ++
  if selected last &&
     negb (bool_decide (callback_of last ∈
             callback_of <$> _deduplicated (List.filter selected handlers)))
  then [last] else [].
Proof.
  rewrite List.filter_app. simpl. destruct (selected last); simpl.
  - unfold _deduplicated at 1. rewrite _deduplicated_loop_snoc.
    fold (_deduplicated (List.filter selected handlers)). f_equal.
    destruct (decide (callback_of last ∈ callback_of <$> List.filter selected handlers))
      as [Hin|Hout].
    + rewrite bool_decide_eq_true_2 by (by right).
      by rewrite bool_decide_eq_true_2 by (by apply _deduplicated_callbacks).
    + rewrite bool_decide_eq_false_2.
      * rewrite bool_decide_eq_false_2; [done|].
        intros Habs. by apply Hout, _deduplicated_callbacks.
      * intros [Hempty|?]; [|done]. by apply not_elem_of_empty in Hempty.
  - by rewrite !app_nil_r.
Qed.

End lookup_invariants.

(** X3. In the watching and in the spawning registry, [get_handlers]
    returns registered handlers in registration order, none of them
    excluded, and each of them matching the cause (fields ignored in the
    watching registry). *)
Theorem get_handlers_registered_matching :
  (∀ (self : registries.GenericRegistry handlers.ResourceWatchingHandler)
     cause (excluded : gset handlers.HandlerId),
     registries.get_handlers self cause excluded
       `sublist_of` registries._handlers self ∧
     ∀ handler, handler ∈ registries.get_handlers self cause excluded →
       (handlers.id (handlers.watching_base handler) ∉ excluded) ∧
       registries.match_ (handlers.Watching handler) (causation.Plain cause) ∅ true
         = true) ∧
  (∀ (self : registries.GenericRegistry handlers.ResourceSpawningHandler)
     cause (excluded : gset handlers.HandlerId),
     registries.get_handlers self cause excluded
       `sublist_of` registries._handlers self ∧
     ∀ handler, handler ∈ registries.get_handlers self cause excluded →
       (handlers.id (handlers.spawning_base handler) ∉ excluded) ∧
       registries.match_ (handlers.Spawning handler) (causation.Plain cause) ∅ false
         = true).
Proof.
  split; intros self cause excluded; (split; [apply selected_sublist|]);
    intros handler [_ Hsel]%selected_elem;
    apply andb_true_iff in Hsel as [Hex Hmatch];
    apply negb_true_iff, bool_decide_eq_false in Hex; done.
Qed.

(** X4. In the changing registry, [get_handlers] returns registered
    handlers in registration order; each of them is not excluded, has no
    reason or the reason of the cause, is marked [initial] only if the
    cause is initial, and matches the cause with the fields its diff
    changes. *)
Theorem changing_get_handlers_gated
    (self : registries.GenericRegistry handlers.ResourceChangingHandler)
    (cause : causation.ResourceChangingCause)
    (excluded : gset handlers.HandlerId) :
  registries.get_handlers self cause excluded `sublist_of` registries._handlers self ∧
  ∀ handler, handler ∈ registries.get_handlers self cause excluded →
    (handlers.id (handlers.changing_base handler) ∉ excluded) ∧
    (handlers.reason handler = None ∨
     handlers.reason handler = Some (causation.reason cause)) ∧
    (py.truthy (handlers.initial handler) = true → causation.initial cause = true) ∧
    registries.match_ (handlers.Changing handler) (causation.Changing cause)
      (registries.ResourceChangingRegistry.changed_fields_of cause) false = true.
Proof.
  split; [apply selected_sublist|].
  intros handler [_ Hsel]%selected_elem.
  unfold registries.ResourceChangingRegistry.yields in Hsel.
  destruct (bool_decide (handlers.id (handlers.changing_base handler) ∈ excluded))
    eqn:Hex; simpl in Hsel; [discriminate|].
  apply bool_decide_eq_false in Hex.
  destruct (bool_decide (handlers.reason handler = None)
            || bool_decide (handlers.reason handler = Some (causation.reason cause)))
    eqn:Hreason; [|discriminate].
  apply orb_true_iff in Hreason.
  rewrite !bool_decide_eq_true in Hreason.
  destruct (py.truthy (handlers.initial handler)) eqn:Hinit; simpl in Hsel.
  - destruct (causation.initial cause) eqn:Hci; simpl in Hsel; [|discriminate].
    destruct (causation.deleted cause && negb (py.truthy (handlers.deleted handler)));
      [discriminate|]. done.
  - done.
Qed.

(** X5. A field-scoped handler is returned by the changing registry only
    for a cause whose diff has an entry at its field, above it or below
    it; for a cause without a diff it is not returned. *)
Theorem field_handler_needs_diff_entry
    (self : registries.GenericRegistry handlers.ResourceChangingHandler)
    (cause : causation.ResourceChangingCause)
    (excluded : gset handlers.HandlerId)
    (handler : handlers.ResourceChangingHandler) (F : dicts.FieldPath) :
  handlers.field handler = Some F →
  F ≠ [] →
  handler ∈ registries.get_handlers self cause excluded →
  ∃ entry, entry ∈ default [] (causation.diff cause) ∧
    (causation.diff_field entry `prefix_of` F ∨
     F `prefix_of` causation.diff_field entry).
Proof.
  intros Hfield Hnonempty [_ Hsel]%selected_elem.
  assert (registries._matches_field (handlers.Changing handler)
            (registries.ResourceChangingRegistry.changed_fields_of cause) false
          = true) as Hmatch.
  { unfold registries.ResourceChangingRegistry.yields in Hsel.
    repeat match type of Hsel with
           | (if ?c then _ else _) = true => destruct c; [|discriminate]
           | (if ?c then false else _) = true => destruct c; [discriminate|]
           end.
    unfold registries.match_ in Hsel. simpl in Hsel.
    by apply andb_true_iff in Hsel as [? _]. }
  unfold registries._matches_field in Hmatch. simpl in Hmatch.
  rewrite Hfield in Hmatch. destruct F as [|segment F]; [done|].
  apply existsb_exists in Hmatch as (P & Hin & Hov).
  apply list_elem_of_In, elem_of_elements in Hin.
  unfold registries.ResourceChangingRegistry.changed_fields_of in Hin.
  apply elem_of_list_to_set, list_elem_of_fmap in Hin as (entry & -> & Hentry).
  exists entry. split; [done|].
  apply field_overlaps_prefix in Hov. tauto.
Qed.

(** X6. Registering one more handler leaves what [get_handlers] returned
    before in place: the new handler is added at the end when it is
    selected for the cause and its callback is not among those returned
    already, and nothing changes otherwise. *)
Theorem get_handlers_append :
  (∀ (self : registries.GenericRegistry handlers.ResourceWatchingHandler)
     cause (excluded : gset handlers.HandlerId) handler,
     registries.get_handlers (registries.append self handler) cause excluded =
     registries.get_handlers self cause excluded ++
     if registries.ResourceWatchingRegistry.yields cause excluded handler &&
        negb (bool_decide (callback_of handler ∈
                callback_of <$> registries.get_handlers self cause excluded))
     then [handler] else []) ∧
  (∀ (self : registries.GenericRegistry handlers.ResourceSpawningHandler)
     cause (excluded : gset handlers.HandlerId) handler,
     registries.get_handlers (registries.append self handler) cause excluded =
     registries.get_handlers self cause excluded ++
     if registries.ResourceSpawningRegistry.yields cause excluded handler &&
        negb (bool_decide (callback_of handler ∈
                callback_of <$> registries.get_handlers self cause excluded))
     then [handler] else []) ∧
  (∀ (self : registries.GenericRegistry handlers.ResourceChangingHandler)
     cause (excluded : gset handlers.HandlerId) handler,
     registries.get_handlers (registries.append self handler) cause excluded =
     registries.get_handlers self cause excluded ++
     if registries.ResourceChangingRegistry.yields cause
          (registries.ResourceChangingRegistry.changed_fields_of cause)
          excluded handler &&
        negb (bool_decide (callback_of handler ∈
                callback_of <$> registries.get_handlers self cause excluded))
     then [handler] else []).
Proof.
  split; [|split]; intros self cause excluded handler; apply selected_snoc.
Qed.

Section finalizer_composition.
Import handlers registries.

Lemma spawning_requires_finalizer_loop_snoc
    (handlers : list ResourceSpawningHandler) last cause (excluded : gset HandlerId) :
  ResourceSpawningRegistry.requires_finalizer_loop (handlers ++ [last]) cause excluded =
  ResourceSpawningRegistry.requires_finalizer_loop handlers cause excluded ||
  (negb (bool_decide (id (spawning_base last) ∈ excluded)) &&
   (py.truthy (spawning_requires_finalizer last) &&
    match_ (Spawning last) (causation.Plain cause) ∅ false)).
Proof.
  induction handlers as [|h rest IH]; simpl.
  - by repeat match goal with |- context [if ?c then _ else _] => destruct c end.
  - rewrite IH.
    by repeat match goal with |- context [if ?c then _ else _] => destruct c end.
Qed.

Lemma changing_requires_finalizer_loop_snoc
    (handlers : list ResourceChangingHandler) last cause (excluded : gset HandlerId) :
  ResourceChangingRegistry.requires_finalizer_loop (handlers ++ [last]) cause excluded =
  ResourceChangingRegistry.requires_finalizer_loop handlers cause excluded ||
  (negb (bool_decide (id (changing_base last) ∈ excluded)) &&
   (py.truthy (requires_finalizer last) &&
    match_ (Changing last) (causation.Changing cause) ∅ false)).
Proof.
  induction handlers as [|h rest IH]; simpl.
  - by repeat match goal with |- context [if ?c then _ else _] => destruct c end.
  - rewrite IH.
    by repeat match goal with |- context [if ?c then _ else _] => destruct c end.
Qed.

End finalizer_composition.

(** X7. Registering one more handler can only turn [requires_finalizer]
    from false to true: afterwards it is true exactly when it was true
    before or the new handler is not excluded, declares
    [requires_finalizer] and matches the cause. *)
Theorem requires_finalizer_append :
  (∀ (self : registries.GenericRegistry handlers.ResourceSpawningHandler)
     cause (excluded : gset handlers.HandlerId) handler,
     registries.ResourceSpawningRegistry.requires_finalizer
       (registries.append self handler) cause excluded =
     registries.ResourceSpawningRegistry.requires_finalizer self cause excluded ||
     (negb (bool_decide (handlers.id (handlers.spawning_base handler) ∈ excluded)) &&
      (py.truthy (handlers.spawning_requires_finalizer handler) &&
       registries.match_ (handlers.Spawning handler) (causation.Plain cause) ∅ false))) ∧
  (∀ (self : registries.GenericRegistry handlers.ResourceChangingHandler)
     cause (excluded : gset handlers.HandlerId) handler,
     registries.ResourceChangingRegistry.requires_finalizer
       (registries.append self handler) cause excluded =
     registries.ResourceChangingRegistry.requires_finalizer self cause excluded ||
     (negb (bool_decide (handlers.id (handlers.changing_base handler) ∈ excluded)) &&
      (py.truthy (handlers.requires_finalizer handler) &&
       registries.match_ (handlers.Changing handler) (causation.Changing cause)
         ∅ false))).
Proof.
  split; intros self cause excluded handler.
  - apply spawning_requires_finalizer_loop_snoc.
  - apply changing_requires_finalizer_loop_snoc.
Qed.

(** X8. Excluding more handler ids can only turn [requires_finalizer]
    of the changing registry from true to false. *)
Theorem requires_finalizer_antitone_in_excluded
    (self : registries.GenericRegistry handlers.ResourceChangingHandler)
    (cause : causation.ResourceChangingCause)
    (excluded more : gset handlers.HandlerId) :
  excluded ⊆ more →
  registries.ResourceChangingRegistry.requires_finalizer self cause more = true →
  registries.ResourceChangingRegistry.requires_finalizer self cause excluded = true.
Proof.
  intros Hsub. unfold registries.ResourceChangingRegistry.requires_finalizer.
  rewrite !changing_requires_finalizer_loop_exists.
  intros (handler & Hin & Hnex & Hrest). exists handler.
  split; [done|]. split; [|done]. intros Hex. by apply Hnex, Hsub.
Qed.

(** X9. Exclusion is by handler id and deduplication by callback, in
    this order: as long as one registered record of a callback is
    selected for the cause and not excluded, [get_handlers] of the
    changing registry returns a record with that callback. *)
Theorem changing_get_handlers_represents_callback
    (self : registries.GenericRegistry handlers.ResourceChangingHandler)
    (cause : causation.ResourceChangingCause)
    (excluded : gset handlers.HandlerId)
    (handler : handlers.ResourceChangingHandler) :
  handler ∈ registries._handlers self →
  registries.ResourceChangingRegistry.yields cause
    (registries.ResourceChangingRegistry.changed_fields_of cause) excluded handler
    = true →
  ∃ kept, kept ∈ registries.get_handlers self cause excluded ∧
          callback_of kept = callback_of handler.
Proof.
  intros Hin Hsel.
  assert (callback_of handler ∈
            callback_of <$> registries.get_handlers self cause excluded) as Hrep.
  { apply _deduplicated_callbacks, list_elem_of_fmap. exists handler.
    split; [done|]. apply list_elem_of_In, filter_In.
    split; [by apply list_elem_of_In | done]. }
  apply list_elem_of_fmap in Hrep as (kept & Heq & Hkept). by exists kept.
Qed.

(** ** Filters *)

Section metadata_filters.

Lemma _matches_metadata_all (content : gmap string string)
    (cause : causation.AnyCause) (p : filters.MetaFilter) :
  registries._matches_metadata p content cause = true ↔
  ∀ key value, (key, value) ∈ p → satisfied value (content !! key) cause.
Proof.
  induction p as [|[key value] rest IH]; simpl.
    - split; [|done]. intros _ ? ? Hin. by apply elem_of_nil in Hin.
    - assert (satisfied value (content !! key) cause →
              (registries._matches_metadata rest content cause = true ↔
               ∀ k v, (k, v) ∈ (key, value) :: rest →
                      satisfied v (content !! k) cause)) as Hyes.
      { intros Hsat. rewrite IH. split.
        - intros Hrest k v [[= -> ->] | Hin]%elem_of_cons; [done | by apply Hrest].
        - intros Hfull k v Hin. apply Hfull. by apply list_elem_of_further. }
      assert (¬ satisfied value (content !! key) cause →
              (false = true ↔
               ∀ k v, (k, v) ∈ (key, value) :: rest →
                      satisfied v (content !! k) cause)) as Hno.
      { intros Hunsat. split; [done|]. intros Hfull. exfalso.
        apply Hunsat, Hfull, list_elem_of_here. }
      destruct value as [s| | |f]; simpl;
        destruct (content !! key) as [observed|] eqn:Hlookup; simpl.
      + destruct (decide (s = observed)) as [->|Hne].
        * rewrite bool_decide_eq_true_2 by done. simpl.
          apply Hyes. simpl. by rewrite ?Hlookup.
        * rewrite bool_decide_eq_false_2 by done. simpl.
          apply Hno. simpl. rewrite ?Hlookup. by intros [= ?].
      + apply Hno. simpl. by rewrite ?Hlookup.
      + apply Hyes. simpl. rewrite ?Hlookup. by eexists.
      + apply Hno. simpl. rewrite ?Hlookup. by intros [? ?].
      + apply Hno. simpl. by rewrite ?Hlookup.
      + apply Hyes. simpl. by rewrite ?Hlookup.
      + destruct (f (Some observed) (invocation.build_kwargs cause)) eqn:Hf.
        * apply Hyes. simpl. by rewrite ?Hlookup.
        * apply Hno. simpl. by rewrite ?Hlookup, Hf.
      + destruct (f None (invocation.build_kwargs cause)) eqn:Hf.
        * apply Hyes. simpl. by rewrite ?Hlookup.
        * apply Hno. simpl. by rewrite ?Hlookup, Hf.
Qed.

End metadata_filters.

(** X10. A label or annotation filter passes exactly when every one of
    its entries is satisfied by the observed value of its key: [ABSENT]
    by a missing key, [PRESENT] by a key with any value, a callable by
    its own verdict on the value (or on [None]), a literal by an equal
    value. The order of the entries does not matter. *)
Theorem _matches_metadata_every_entry (pattern : filters.MetaFilter)
    (content : gmap string string) (cause : causation.AnyCause) :
  (registries._matches_metadata pattern content cause = true ↔
   ∀ key value, (key, value) ∈ pattern → satisfied value (content !! key) cause) ∧
  (∀ reordered, pattern ≡ₚ reordered →
     registries._matches_metadata reordered content cause
     = registries._matches_metadata pattern content cause).
Proof.
  assert (∀ p, registries._matches_metadata p content cause = true ↔
               ∀ key value, (key, value) ∈ p → satisfied value (content !! key) cause)
    as Hall by apply _matches_metadata_all.
  split; [apply Hall|].
  intros reordered Hperm.
  destruct (registries._matches_metadata pattern content cause) eqn:Hp.
  - apply Hall. intros key value Hin. apply (proj1 (Hall pattern) Hp).
    by rewrite Hperm.
  - destruct (registries._matches_metadata reordered content cause) eqn:Hr; [|done].
    assert (registries._matches_metadata pattern content cause = true); [|congruence].
    apply Hall. intros key value Hin. apply (proj1 (Hall reordered) Hr).
    by rewrite <- Hperm.
Qed.

(** X11. The field check distributes over the union of changed fields:
    a handler passes for the fields of two diffs together exactly when
    it passes for one of them. *)
Theorem _matches_field_union (handler : handlers.AnyResourceHandler)
    (C1 C2 : gset dicts.FieldPath) (ignore_fields : bool) :
  registries._matches_field handler (C1 ∪ C2) ignore_fields =
  registries._matches_field handler C1 ignore_fields ||
  registries._matches_field handler C2 ignore_fields.
Proof.
  unfold registries._matches_field.
  destruct ignore_fields; simpl; [done|].
  destruct handler as [h|h|h]; try done.
  destruct (handlers.field h) as [[|segment F]|]; try done.
  apply eq_true_iff_eq.
  rewrite orb_true_iff, !existsb_exists. split.
  - intros (P & Hin & Hov).
    apply list_elem_of_In, elem_of_elements, elem_of_union in Hin as [Hin|Hin];
      [left | right]; exists P; split; try done;
      by apply list_elem_of_In, elem_of_elements.
  - intros [(P & Hin & Hov) | (P & Hin & Hov)]; exists P; split; try done;
      apply list_elem_of_In, elem_of_elements, elem_of_union;
      apply list_elem_of_In, elem_of_elements in Hin; tauto.
Qed.

(** X12. The extra fields of a changing registry are exactly the
    non-empty field paths of its handlers; handlers without a field add
    nothing. *)
Theorem get_extra_fields_spec
    (self : registries.GenericRegistry handlers.ResourceChangingHandler)
    (path : dicts.FieldPath) :
  path ∈ registries.ResourceChangingRegistry.get_extra_fields self ↔
  path ≠ [] ∧
  ∃ handler, handler ∈ registries._handlers self ∧
             handlers.field handler = Some path.
Proof.
  unfold registries.ResourceChangingRegistry.get_extra_fields,
    registries.ResourceChangingRegistry.iter_extra_fields,
    registries.ResourceChangingRegistry.has_field.
  rewrite elem_of_list_to_set, list_elem_of_omap. split.
  - intros (handler & Hin & Hfield).
    destruct (handlers.field handler) as [[|segment F]|] eqn:Hf; try discriminate.
    injection Hfield as <-. split; [done|]. by exists handler.
  - intros (Hnonempty & handler & Hin & Hfield). exists handler. split; [done|].
    rewrite Hfield. by destruct path.
Qed.

(** ** Activity handlers *)

Section activity_lookup.
Import handlers registries registries.ActivityRegistry.

Lemma _deduplicated_nil {HandlerT} {base : BaseHandler HandlerT}
    (handlers : list HandlerT) :
  _deduplicated handlers = [] ↔ handlers = [].
Proof.
  split; [|by intros ->].
  destruct handlers as [|h rest]; [done|].
  unfold _deduplicated. simpl.
  by rewrite bool_decide_eq_false_2 by apply not_elem_of_empty.
Qed.

Lemma List_filter_nil {A} (keep : A → bool) (l : list A) :
  List.filter keep l = [] ↔ ∀ x, x ∈ l → keep x = false.
Proof.
  induction l as [|y l IH]; simpl.
  - split; [|done]. intros _ x Hin. by apply elem_of_nil in Hin.
  - destruct (keep y) eqn:Hy.
    + split; [done|]. intros Hall.
      rewrite (Hall y) in Hy by apply list_elem_of_here. discriminate.
    + rewrite IH. split.
      * intros Hall x [->|Hin]%elem_of_cons; [done | by apply Hall].
      * intros Hall x Hin. by apply Hall, list_elem_of_further.
Qed.

Lemma existsb_false {A} (keep : A → bool) (l : list A) :
  existsb keep l = false ↔ ∀ x, x ∈ l → keep x = false.
Proof.
  induction l as [|y l IH]; simpl.
  - split; [|done]. intros _ x Hin. by apply elem_of_nil in Hin.
  - rewrite orb_false_iff, IH. split.
    + intros [Hy Hall] x [->|Hin]%elem_of_cons; [done | by apply Hall].
    + intros Hall. split; [apply Hall, list_elem_of_here|].
      intros x Hin. by apply Hall, list_elem_of_further.
Qed.

Lemma matches_neither (requested : Activity) (handler : ActivityHandler) :
  is_regular requested handler = false ∧ is_fallback requested handler = false ↔
  activity handler ≠ None ∧ activity handler ≠ Some requested.
Proof.
  unfold is_regular, is_fallback.
  destruct (decide (activity handler = None)) as [Hn|Hn];
    destruct (decide (activity handler = Some requested)) as [Hs|Hs];
    rewrite ?(bool_decide_eq_true_2 _ Hn), ?(bool_decide_eq_false_2 _ Hn),
      ?(bool_decide_eq_true_2 _ Hs), ?(bool_decide_eq_false_2 _ Hs);
    destruct (_fallback handler); simpl; split; intros [? ?]; try done.
Qed.

Lemma activity_get_handlers_nil (self : GenericRegistry ActivityHandler)
    (requested : Activity) :
  get_handlers self requested = [] ↔
  ∀ handler, handler ∈ _handlers self →
    activity handler ≠ None ∧ activity handler ≠ Some requested.
Proof.
  unfold get_handlers. rewrite _deduplicated_nil, iter_handlers_filter.
  destruct (existsb (is_regular requested) (_handlers self)) eqn:Hex.
  - split.
    + intros Hnil. exfalso. apply existsb_exists in Hex as (h & Hin & Hreg).
      apply list_elem_of_In in Hin.
      rewrite (proj1 (List_filter_nil _ _) Hnil h Hin) in Hreg. discriminate.
    + intros Hnone. exfalso. apply existsb_exists in Hex as (h & Hin & Hreg).
      apply list_elem_of_In, Hnone, matches_neither in Hin as [Hr _]. congruence.
  - rewrite List_filter_nil. rewrite existsb_false in Hex. split.
    + intros Hfb handler Hin. apply matches_neither. split; auto.
    + intros Hnone handler Hin. by apply Hnone, matches_neither in Hin as [_ ?].
Qed.

End activity_lookup.

(** X13. The activity registry returns only registered handlers whose
    activity is [None] or the requested one, and it returns none exactly
    when no registered handler, fallback or not, has such an activity. *)
Theorem activity_get_handlers_matching
    (self : registries.GenericRegistry handlers.ActivityHandler)
    (requested : handlers.Activity) :
  (∀ handler,
     handler ∈ registries.ActivityRegistry.get_handlers self requested →
     handler ∈ registries._handlers self ∧
     (handlers.activity handler = None ∨
      handlers.activity handler = Some requested)) ∧
  (registries.ActivityRegistry.get_handlers self requested = [] ↔
   ∀ handler, handler ∈ registries._handlers self →
     handlers.activity handler ≠ None ∧
     handlers.activity handler ≠ Some requested).
Proof.
  split.
  - intros handler Hin. unfold registries.ActivityRegistry.get_handlers in Hin.
    apply list_elem_of_In, _deduplicated_In in Hin.
    rewrite iter_handlers_filter in Hin.
    destruct (existsb _ _); apply filter_In in Hin as [Hmem Hsel];
      (split; [by apply list_elem_of_In|]);
      apply orb_true_iff in Hsel as [Hnone | Hsome];
      try (left; by apply bool_decide_eq_true in Hnone);
      apply andb_true_iff in Hsome as [Hact _];
      right; by apply bool_decide_eq_true in Hact.
  - apply activity_get_handlers_nil.
Qed.

(** * Further properties of identifier derivation *)

Section identifier_facts.
Import callables py registries.

Lemma list_ascii_of_string_app (s1 s2 : string) :
  list_ascii_of_string (s1 +:+ s2) =
  list_ascii_of_string s1 ++ list_ascii_of_string s2.
Proof.
  induction s1 as [|c s1 IH]; [done|].
  rewrite string_app_cons. simpl. by rewrite IH.
Qed.

Lemma list_ascii_of_string_inj (s1 s2 : string) :
  list_ascii_of_string s1 = list_ascii_of_string s2 → s1 = s2.
Proof.
  intros Heq. rewrite <- (string_of_list_ascii_of_string s1),
    <- (string_of_list_ascii_of_string s2). by rewrite Heq.
Qed.

Lemma string_app_inv_tail (s1 s2 t : string) :
  s1 +:+ t = s2 +:+ t → s1 = s2.
Proof.
  intros Heq. apply list_ascii_of_string_inj.
  apply (f_equal list_ascii_of_string) in Heq.
  rewrite !list_ascii_of_string_app in Heq. by apply app_inv_tail in Heq.
Qed.

Lemma composed_inj (prefix suffix : option string) (id1 id2 : string) :
  composed prefix id1 suffix = composed prefix id2 suffix → id1 = id2.
Proof.
  unfold composed. intros Heq.
  apply String.app_inj in Heq. by apply string_app_inv_tail in Heq.
Qed.

Lemma get_callable_id_decorated (layers : list Layer) (c : PyObject) :
  get_callable_id (decorated layers c) = get_callable_id c.
Proof. induction layers as [|[] layers IH]; simpl; done. Qed.

End identifier_facts.

(** X14. The derived id does not depend on the decoration of the
    callable: under any stack of [functools.partial] and
    [functools.wraps] layers [generate_id] gives what it gives for the
    callable itself, an error included. *)
Theorem generate_id_ignores_decoration (layers : list Layer)
    (fn : callables.PyObject) (id prefix suffix : option string) :
  registries.generate_id (decorated layers fn) id prefix suffix
  = registries.generate_id fn id prefix suffix.
Proof.
  rewrite !generate_id_composed. destruct id as [id|]; [done|].
  by rewrite get_callable_id_decorated.
Qed.

(** X15. Under one prefix and suffix, different explicit ids give
    different handler ids. *)
Theorem generate_id_explicit_injective (fn1 fn2 : callables.PyObject)
    (id1 id2 : string) (prefix suffix : option string) :
  registries.generate_id fn1 (Some id1) prefix suffix
  = registries.generate_id fn2 (Some id2) prefix suffix →
  id1 = id2.
Proof.
  rewrite !generate_id_composed. intros [= Heq]. by apply composed_inj in Heq.
Qed.

(** The ids of two sub-handlers of one parent. *)
Lemma generate_id_explicit_injective_witness :
  registries.generate_id callables.PyNone (Some "task_abc") (Some "create") None
  = registries.generate_id callables.PyNone (Some "task_abc") (Some "create") None ∧
  "task_abc" = "task_abc".
Proof.
  split; [reflexivity|].
  apply (generate_id_explicit_injective callables.PyNone callables.PyNone
           "task_abc" "task_abc" (Some "create") None).
  reflexivity.
Defined.

(** X16. Lambdas of one source file are told apart by their first line
    alone: their derived ids agree exactly when the lines agree, whatever
    their qualified names. *)
Theorem lambda_ids_by_line (qualname1 qualname2 path : string) (line1 line2 : Z) :
  registries.get_callable_id
    (callables.Function "<lambda>" qualname1 path line1)
  = registries.get_callable_id
      (callables.Function "<lambda>" qualname2 path line2) ↔
  line1 = line2.
Proof.
  simpl. split; [|by intros ->].
  intros [= Heq]. rewrite !string_app_nil_l in Heq.
  do 2 apply String.app_inj in Heq.
  by apply (inj pretty) in Heq.
Qed.

(** * Further properties of event posting *)

Section event_facts.
Import py events.

Lemma shorten_long (message : string) :
  String.length message > 1024 →
  shorten message =
  string_of_list_ascii (take 511 (list_ascii_of_string message)) +:+
  CUT_MESSAGE_INFIX +:+
  string_of_list_ascii
    (drop (String.length message - 510) (list_ascii_of_string message)).
Proof.
  intros Hlong. unfold shorten.
  assert ((len message >? MAX_MESSAGE_LENGTH)%Z = true) as ->.
  { apply Z.gtb_lt. unfold len, MAX_MESSAGE_LENGTH. lia. }
  unfold str_slice_to, str_slice_from.
  change (MAX_MESSAGE_LENGTH / 2 - len CUT_MESSAGE_INFIX / 2)%Z with (Z.of_nat 511).
  change (- MAX_MESSAGE_LENGTH / 2
          + (len CUT_MESSAGE_INFIX - len CUT_MESSAGE_INFIX / 2))%Z
    with (- Z.of_nat 510)%Z.
  rewrite slice_to_of_nat, slice_from_negative
    by (rewrite length_list_ascii_of_string; lia).
  by rewrite length_list_ascii_of_string.
Qed.

Lemma shorten_short (message : string) :
  String.length message ≤ 1024 → shorten message = message.
Proof.
  intros Hshort. unfold shorten.
  assert ((len message >? MAX_MESSAGE_LENGTH)%Z = false) as ->; [|done].
  rewrite Z.gtb_ltb. apply Z.ltb_ge. unfold len, MAX_MESSAGE_LENGTH. lia.
Qed.

Lemma shorten_length (message : string) :
  String.length (shorten message) = Nat.min (String.length message) 1024.
Proof.
  destruct (Nat.le_gt_cases (String.length message) 1024) as [Hshort|Hlong].
  - rewrite shorten_short by done. lia.
  - rewrite shorten_long by done.
    rewrite !string_length_app, !length_string_of_list_ascii,
      length_take, length_drop, length_list_ascii_of_string.
    change (String.length CUT_MESSAGE_INFIX) with 3. lia.
Qed.

(** The runs of [post_event], case by case. *)
Lemma post_event_cases (env : Env) (ref : ObjectReference)
    (type reason message : string) :
  post_event env ref type reason message =
  match resolve_namespace env ref with
  | Raised e => (Raised e, [])
  | Returned namespace =>
      let body := event_body (utcnow_isoformat env) namespace type reason
                    (shorten message) (<["namespace" := namespace]> ref) in
      let warning e := LoggedWarning e type reason (shorten message) in
      match get_pykube_api env with
      | Raised e =>
          if is_http_error e then (Returned (), [warning e]) else (Raised e, [])
      | Returned _ =>
          match create env body with
          | Returned _ => (Returned (), [Submitted body])
          | Raised e =>
              if is_http_error e
              then (Returned (), [Submitted body; warning e])
              else (Raised e, [Submitted body])
          end
      end
  end.
Proof.
  unfold post_event, is_http_error.
  destruct (resolve_namespace env ref) as [namespace|e0]; simpl; [|done].
  destruct (get_pykube_api env) as [[]|e1]; simpl.
  - destruct (create env _) as [[]|e2]; simpl; [done|].
    rewrite orb_false_r. by destruct (isinstance e2 _ || _).
  - rewrite orb_false_r. by destruct (isinstance e1 _ || _).
Qed.

End event_facts.

(** X17. The message of an event is never longer than 1024 characters:
    its length is the smaller of the original length and 1024; and
    shortening a shortened message changes nothing. *)
Theorem shorten_bounded_idempotent (message : string) :
  String.length (events.shorten message)
    = Nat.min (String.length message) 1024 ∧
  events.shorten (events.shorten message) = events.shorten message.
Proof.
  split; [apply shorten_length|].
  apply shorten_short. rewrite shorten_length. lia.
Qed.

(** X18. The namespace of the object's reference, when it has one, is the
    namespace of the event: the configuration is not consulted, so its
    answer, an error included, makes no difference. *)
Theorem post_event_namespace_of_reference (env : events.Env)
    (ref : events.ObjectReference) (type reason message namespace : string)
    (answer : py.outcome string) :
  ref !! "namespace" = Some namespace →
  namespace ≠ EmptyString →
  events.resolve_namespace env ref = py.Returned namespace ∧
  events.post_event
    {| events.utcnow_isoformat := events.utcnow_isoformat env;
       events.get_pykube_cfg_namespace := answer;
       events.get_pykube_api := events.get_pykube_api env;
       events.create := events.create env |}
    ref type reason message
  = events.post_event env ref type reason message.
Proof.
  intros Hns Hnonempty.
  assert (∀ env', events.resolve_namespace env' ref = py.Returned namespace) as Hres.
  { intros env'. unfold events.resolve_namespace, py.str_truthy.
    rewrite Hns. by rewrite bool_decide_eq_false_2. }
  split; [apply Hres|].
  rewrite !post_event_cases, !Hres. done.
Qed.

(** X19. For a reference without a namespace (or with an empty one) the
    event goes to the namespace of the configuration: the posted body
    carries it as its own namespace and as the namespace of the involved
    object, whose other keys are those of the reference. *)
Theorem post_event_namespace_of_configuration (env : events.Env)
    (ref : events.ObjectReference) (type reason message namespace : string) :
  ref !! "namespace" = None ∨ ref !! "namespace" = Some EmptyString →
  events.get_pykube_cfg_namespace env = py.Returned namespace →
  events.get_pykube_api env = py.Returned () →
  ∃ body rest,
    snd (events.post_event env ref type reason message)
      = events.Submitted body :: rest ∧
    events.metadata_namespace body = namespace ∧
    events.involvedObject body !! "namespace" = Some namespace ∧
    ∀ key, key ≠ "namespace" → events.involvedObject body !! key = ref !! key.
Proof.
  intros Hmissing Hcfg Hapi.
  assert (events.resolve_namespace env ref = py.Returned namespace) as Hres.
  { unfold events.resolve_namespace, py.str_truthy.
    destruct Hmissing as [-> | ->]; [done|].
    by rewrite bool_decide_eq_true_2. }
  rewrite post_event_cases, Hres, Hapi. simpl.
  destruct (events.create env _) as [[]|e]; [|destruct (is_http_error e)];
    simpl; eexists _, _; (split; [reflexivity|]); simpl;
    (split; [done|]); (split; [apply lookup_insert_eq|]);
    intros key Hkey; by apply lookup_insert_ne.
Qed.

(** X20. The namespace lookup comes before the guarded block: when it
    raises, be it an HTTP error, [post_event] raises the same error,
    hands nothing over for creation and logs nothing. *)
Theorem post_event_unguarded_namespace_lookup (env : events.Env)
    (ref : events.ObjectReference) (type reason message : string) (e : py.Exn) :
  events.resolve_namespace env ref = py.Raised e →
  events.post_event env ref type reason message = (py.Raised e, []).
Proof. intros Hres. by rewrite post_event_cases, Hres. Qed.

(** X21. In every run, [post_event] hands at most one body over for
    creation, and none unless the namespace and the API client were
    obtained; a warning is logged only in a run that returns, and only
    for an HTTP error; and what a run raises was raised by the namespace
    lookup or is no HTTP error. *)
Theorem post_event_effects_disciplined (env : events.Env)
    (ref : events.ObjectReference) (type reason message : string) :
  length (List.filter is_submission
            (snd (events.post_event env ref type reason message))) ≤ 1 ∧
  (∀ body, events.Submitted body ∈ snd (events.post_event env ref type reason message) →
     (∃ namespace, events.resolve_namespace env ref = py.Returned namespace) ∧
     events.get_pykube_api env = py.Returned ()) ∧
  (∀ e t r m,
     events.LoggedWarning e t r m ∈ snd (events.post_event env ref type reason message) →
     fst (events.post_event env ref type reason message) = py.Returned () ∧
     is_http_error e = true ∧
     m = events.shorten message) ∧
  (∀ e, fst (events.post_event env ref type reason message) = py.Raised e →
     events.resolve_namespace env ref = py.Raised e ∨ is_http_error e = false).
Proof.
  rewrite post_event_cases.
  destruct (events.resolve_namespace env ref) as [namespace|e0]; simpl.
  - destruct (events.get_pykube_api env) as [[]|e1]; simpl.
    + destruct (events.create env _) as [[]|e2]; simpl;
        [|destruct (is_http_error e2) eqn:Hhttp]; simpl;
        (split; [lia|]); (split; [by eauto|]);
        (split; [|intros e [= <-]; by right]); intros e t r m Hin;
        repeat (apply elem_of_cons in Hin as [Hin|Hin]; try discriminate);
        try (by apply elem_of_nil in Hin).
      by injection Hin as -> -> -> ->.
    + destruct (is_http_error e1) eqn:Hhttp; simpl;
        (split; [lia|]);
        (split; [intros body Hin|split; [intros e t r m Hin|]]);
        try (intros e [= <-]; by right);
        repeat (apply elem_of_cons in Hin as [Hin|Hin]; try discriminate);
        try (by apply elem_of_nil in Hin).
      by injection Hin as -> -> -> ->.
  - split; [lia|].
    split; [intros body Hin|split; [intros e t r m Hin|]];
      try (by apply elem_of_nil in Hin).
    intros e [= <-]. by left.
Qed.

(** * Properties of the operator registries *)

Section operator_facts.
Import handlers registries operator.

Lemma append_activity_handlers (self : OperatorRegistry) (users : list ActivityHandler) :
  _handlers (activity_handlers (foldl append_activity self users)) =
  _handlers (activity_handlers self) ++ users.
Proof.
  revert self. induction users as [|u users IH]; intros self; simpl.
  - by rewrite app_nil_r.
  - rewrite IH. simpl. by rewrite <- app_assoc.
Qed.

Lemma smart_builtin (around : Surroundings) (handler : ActivityHandler) :
  handler ∈ _handlers (activity_handlers (SmartOperatorRegistry.__init__ around)) →
  activity handler = Some AUTHENTICATION ∧ _fallback handler = true.
Proof.
  unfold SmartOperatorRegistry.__init__.
  destruct (pykube_importable around), (kubernetes_importable around); simpl;
    intros Hin;
    repeat (apply elem_of_cons in Hin as [->|Hin]; [done|]);
    by apply elem_of_nil in Hin.
Qed.

Lemma smart_builtin_none (around : Surroundings) :
  _handlers (activity_handlers (SmartOperatorRegistry.__init__ around)) = [] ↔
  pykube_importable around = false ∧ kubernetes_importable around = false.
Proof.
  unfold SmartOperatorRegistry.__init__.
  destruct (pykube_importable around), (kubernetes_importable around); simpl;
    split; (try done); by intros [? ?].
Qed.

End operator_facts.

(** X22. The built-in logins of a smart operator registry give way to a
    login handler of the user: once a handler that is not a fallback is
    registered for authentication (or for every activity), the lookup
    for authentication returns handlers of the user only; and with no
    such handler it returns nothing exactly when neither client library
    can be imported. *)
Theorem smart_registry_defers_to_user (around : operator.Surroundings)
    (users : list handlers.ActivityHandler) :
  (∀ user, user ∈ users → handlers._fallback user = false) →
  ((∃ user, user ∈ users ∧
            (handlers.activity user = None ∨
             handlers.activity user = Some handlers.AUTHENTICATION)) →
   ∀ handler,
     handler ∈ registries.ActivityRegistry.get_handlers
                 (operator.activity_handlers
                    (foldl operator.append_activity
                       (operator.SmartOperatorRegistry.__init__ around) users))
                 handlers.AUTHENTICATION →
     handler ∈ users) ∧
  ((∀ user, user ∈ users →
            handlers.activity user ≠ None ∧
            handlers.activity user ≠ Some handlers.AUTHENTICATION) →
   (registries.ActivityRegistry.get_handlers
      (operator.activity_handlers
         (foldl operator.append_activity
            (operator.SmartOperatorRegistry.__init__ around) users))
      handlers.AUTHENTICATION = [] ↔
    operator.pykube_importable around = false ∧
    operator.kubernetes_importable around = false)).
Proof.
  intros Hregular. split.
  - intros (user & Hinuser & Hmatches) handler Hin.
    unfold registries.ActivityRegistry.get_handlers in Hin.
    apply list_elem_of_In, _deduplicated_In in Hin.
    rewrite iter_handlers_filter, append_activity_handlers in Hin.
    assert (existsb (registries.ActivityRegistry.is_regular handlers.AUTHENTICATION)
              (registries._handlers
                 (operator.activity_handlers
                    (operator.SmartOperatorRegistry.__init__ around)) ++ users)
            = true) as Hex.
    { apply existsb_exists. exists user. split.
      - apply in_or_app. right. by apply list_elem_of_In.
      - unfold registries.ActivityRegistry.is_regular.
        rewrite (Hregular user Hinuser). simpl. rewrite andb_true_r.
        apply orb_true_iff. rewrite !bool_decide_eq_true. tauto. }
    rewrite Hex in Hin. apply filter_In in Hin as [Hmem Hreg].
    apply in_app_or in Hmem as [Hbuiltin | Huser]; [|by apply list_elem_of_In].
    apply list_elem_of_In, smart_builtin in Hbuiltin as [Hact Hfb].
    unfold registries.ActivityRegistry.is_regular in Hreg.
    rewrite Hact, Hfb in Hreg. discriminate.
  - intros Hnone. rewrite activity_get_handlers_nil, append_activity_handlers.
    rewrite <- smart_builtin_none. split.
    + intros Hall.
      destruct (registries._handlers
                  (operator.activity_handlers
                     (operator.SmartOperatorRegistry.__init__ around)))
        as [|builtin rest] eqn:Hb; [done|].
      assert (handlers.activity builtin = Some handlers.AUTHENTICATION) as Hact.
      { apply (smart_builtin around). rewrite Hb. apply list_elem_of_here. }
      destruct (Hall builtin) as [_ Hne]; [apply list_elem_of_here | done].
    + intros -> handler Hin. by apply Hnone.
Qed.

(** X23. The default registry is created once: a second
    [get_default_registry] returns the registry of the first, whatever
    has become importable in between; and after [set_default_registry]
    it returns the registry that was set. *)
Theorem default_registry_created_once (around later : operator.Surroundings)
    (_default_registry : option operator.OperatorRegistry)
    (registry : operator.OperatorRegistry) :
  operator.get_default_registry later
    (snd (operator.get_default_registry around _default_registry))
  = operator.get_default_registry around _default_registry ∧
  operator.get_default_registry around
    (operator.set_default_registry registry _default_registry)
  = (registry, Some registry).
Proof. by destruct _default_registry. Qed.

(** * Properties of the decorators *)

Section decorator_facts.
Context {Timeout : Type}.


End decorator_facts.





(** * Properties of the commands *)

Section command_facts.
Import py cli.

Lemma cli_login_raises (env : Env) (e : Exn) :
  login env = Raised e →
  cli_login env = (Raised (login_failure e), [Login]).
Proof.
  intros Hlogin. unfold cli_login, step, login_failure. rewrite Hlogin.
  by destruct (isinstance e "kopf.clients.auth.LoginError"),
              (isinstance e "kopf.clients.auth.AccessError").
Qed.

Lemma cli_login_returns (env : Env) :
  login env = Returned () → cli_login env = (Returned (), [Login]).
Proof. intros Hlogin. unfold cli_login, step. by rewrite Hlogin. Qed.

End command_facts.

(** X26. When the login fails, each command stops there: it makes no
    further call (nothing is preloaded, no operator is run, no peer is
    kept alive or removed) and raises a [ClickException] with the message
    of the error for a [LoginError] or an [AccessError], and the error
    itself otherwise. *)
Theorem commands_stop_at_failed_login (env : cli.Env) (e : py.Exn)
    (paths modules : list string) (peering_name : option string)
    (priority lifetime : Z) (standalone : bool) (namespace id message : option string)
    (peering : string) :
  cli.login env = py.Raised e →
  cli.run env paths modules peering_name priority standalone namespace
    = (py.Raised (login_failure e), [cli.Login]) ∧
  cli.freeze env id message lifetime namespace peering priority
    = (py.Raised (login_failure e), [cli.Login]) ∧
  cli.resume env id namespace peering
    = (py.Raised (login_failure e), [cli.Login]).
Proof.
  intros Hlogin. unfold cli.run, cli.freeze, cli.resume.
  by rewrite (cli_login_raises env e Hlogin).
Qed.

(** A cluster that refuses the login. *)
Lemma commands_stop_at_failed_login_witness :
  cli.run (more_examples.cluster (py.Raised more_examples.LoginError))
    ["handlers.py"] [] None 0 false None
    = (py.Raised (cli.ClickException "Cannot authenticate"), [cli.Login]) ∧
  cli.freeze (more_examples.cluster (py.Raised more_examples.LoginError))
    None None 60 None "default" 100
    = (py.Raised (cli.ClickException "Cannot authenticate"), [cli.Login]) ∧
  cli.resume (more_examples.cluster (py.Raised more_examples.LoginError))
    None None "default"
    = (py.Raised (cli.ClickException "Cannot authenticate"), [cli.Login]).
Proof.
  apply (commands_stop_at_failed_login
           (more_examples.cluster (py.Raised more_examples.LoginError))
           more_examples.LoginError ["handlers.py"] [] None 0%Z 60%Z false None
           None None "default").
  reflexivity.
Defined.

(** X27. With an id given on the command line, [freeze] and [resume]
    address the same peer: after the login, [freeze] keeps alive and
    [resume] removes a peer with that id, the given peering name and
    namespace, and neither asks for the detected id of the process. *)
Theorem freeze_resume_same_peer (env : cli.Env) (id : string)
    (message namespace : option string) (lifetime priority : Z) (peering : string) :
  cli.login env = py.Returned () →
  id ≠ EmptyString →
  ∃ frozen resumed,
    cli.freeze env (Some id) message lifetime namespace peering priority
      = (cli.keepalive env frozen, [cli.Login; cli.Keepalive frozen]) ∧
    cli.resume env (Some id) namespace peering
      = (cli.disappear env resumed, [cli.Login; cli.Disappear resumed]) ∧
    cli.peer_id frozen = id ∧ cli.peer_id resumed = id ∧
    cli.peer_name frozen = cli.peer_name resumed ∧
    cli.peer_namespace frozen = cli.peer_namespace resumed.
Proof.
  intros Hlogin Hid. eexists _, _.
  unfold cli.freeze, cli.resume, cli.own_id, py.str_truthy.
  rewrite (cli_login_returns env Hlogin), bool_decide_eq_false_2 by done.
  simpl. repeat split; reflexivity.
Qed.

(** Freezing and resuming the peer ["ops"]. *)
Lemma freeze_resume_same_peer_witness :
  ∃ frozen resumed,
    cli.freeze (more_examples.cluster (py.Returned ())) (Some "ops") None 60
      None "default" 100
      = (cli.keepalive (more_examples.cluster (py.Returned ())) frozen,
         [cli.Login; cli.Keepalive frozen]) ∧
    cli.resume (more_examples.cluster (py.Returned ())) (Some "ops") None "default"
      = (cli.disappear (more_examples.cluster (py.Returned ())) resumed,
         [cli.Login; cli.Disappear resumed]) ∧
    cli.peer_id frozen = "ops" ∧ cli.peer_id resumed = "ops" ∧
    cli.peer_name frozen = cli.peer_name resumed ∧
    cli.peer_namespace frozen = cli.peer_namespace resumed.
Proof.
  apply (freeze_resume_same_peer (more_examples.cluster (py.Returned ()))
           "ops" None None 60%Z 100%Z "default"); [reflexivity | discriminate].
Defined.

(** * The further properties on concrete inputs *)

(** The creation record of the stacked registration is represented by
    the resume record, which comes first and has the same callback. *)
Lemma _deduplicated_distinct_ordered_complete_witness :
  ∃ kept,
    kept ∈ registries._deduplicated
             [examples.on_resume_fn; examples.on_create_fn; examples.on_delete_gn] ∧
    callback_of kept = callback_of examples.on_create_fn.
Proof.
  apply (proj2 (proj2 (_deduplicated_distinct_ordered_complete
           [examples.on_resume_fn; examples.on_create_fn; examples.on_delete_gn]))).
  apply list_elem_of_further, list_elem_of_here.
Defined.

(** A spy on the events of a resource. *)
Lemma get_handlers_registered_matching_witness :
  (handlers.id (handlers.watching_base more_examples.spy)
     ∉ (∅ : gset handlers.HandlerId)) ∧
  registries.match_ (handlers.Watching more_examples.spy)
    (causation.Plain examples.plain_cause) ∅ true = true.
Proof.
  apply (proj2 (proj1 get_handlers_registered_matching
                  more_examples.spy_registry examples.plain_cause ∅)).
  assert (registries.get_handlers more_examples.spy_registry examples.plain_cause ∅
          = [more_examples.spy]) as -> by reflexivity.
  apply list_elem_of_here.
Defined.

(** The resume handler on a resource created while the operator was
    down. *)
Lemma changing_get_handlers_gated_witness :
  (handlers.id (handlers.changing_base examples.on_resume_fn)
     ∉ (∅ : gset handlers.HandlerId)) ∧
  (handlers.reason examples.on_resume_fn = None ∨
   handlers.reason examples.on_resume_fn
     = Some (causation.reason examples.created_while_down)) ∧
  (py.truthy (handlers.initial examples.on_resume_fn) = true →
   causation.initial examples.created_while_down = true) ∧
  registries.match_ (handlers.Changing examples.on_resume_fn)
    (causation.Changing examples.created_while_down)
    (registries.ResourceChangingRegistry.changed_fields_of examples.created_while_down)
    false = true.
Proof.
  apply (proj2 (changing_get_handlers_gated
                  examples.stacked_registry examples.created_while_down ∅)).
  assert (registries.get_handlers examples.stacked_registry
            examples.created_while_down ∅ = [examples.on_resume_fn]) as ->
    by reflexivity.
  apply list_elem_of_here.
Defined.

(** A handler of the field [spec] and a diff that changes [spec]. *)
Lemma field_handler_needs_diff_entry_witness :
  ∃ entry, entry ∈ default [] (causation.diff examples.spec_changed) ∧
    (causation.diff_field entry `prefix_of` ["spec"] ∨
     ["spec"] `prefix_of` causation.diff_field entry).
Proof.
  apply (field_handler_needs_diff_entry more_examples.field_registry
           examples.spec_changed ∅ (examples.on_field ["spec"]) ["spec"]).
  - reflexivity.
  - discriminate.
  - assert (registries.get_handlers more_examples.field_registry
              examples.spec_changed ∅ = [examples.on_field ["spec"]]) as ->
      by (vm_compute; reflexivity).
    apply list_elem_of_here.
Defined.

(** The deletion handler of the stacked registry asks for a finalizer,
    with and without an unrelated id excluded. *)
Lemma requires_finalizer_antitone_in_excluded_witness :
  registries.ResourceChangingRegistry.requires_finalizer
    examples.stacked_registry examples.created_while_down ∅ = true.
Proof.
  apply (requires_finalizer_antitone_in_excluded examples.stacked_registry
           examples.created_while_down ∅ {[ "fn/create" ]}).
  - apply empty_subseteq.
  - vm_compute. reflexivity.
Defined.

(** Once the resume record of the stacked registration is excluded, the
    creation record stands for the same callback. *)
Lemma changing_get_handlers_represents_callback_witness :
  ∃ kept,
    kept ∈ registries.get_handlers examples.stacked_registry
             examples.created_while_down {[ "fn/resume" ]} ∧
    callback_of kept = callback_of examples.on_create_fn.
Proof.
  apply (changing_get_handlers_represents_callback examples.stacked_registry
           examples.created_while_down {[ "fn/resume" ]} examples.on_create_fn).
  - apply list_elem_of_further, list_elem_of_here.
  - vm_compute. reflexivity.
Defined.

(** Labels that satisfy a filter with a literal, a [PRESENT] and an
    [ABSENT] entry. *)
Lemma _matches_metadata_every_entry_witness :
  registries._matches_metadata more_examples.wanted_labels
    more_examples.web_labels (causation.Plain examples.plain_cause) = true.
Proof.
  apply (proj1 (_matches_metadata_every_entry more_examples.wanted_labels
                  more_examples.web_labels (causation.Plain examples.plain_cause))).
  intros key value Hin.
  repeat (apply elem_of_cons in Hin as [[= -> ->] | Hin];
          [vm_compute; by eauto|]).
  by apply elem_of_nil in Hin.
Defined.

(** The user's login handler is what the lookup returns. *)
Lemma activity_get_handlers_matching_witness :
  examples.user_login ∈ registries._handlers examples.user_and_builtin ∧
  (handlers.activity examples.user_login = None ∨
   handlers.activity examples.user_login = Some handlers.AUTHENTICATION).
Proof.
  apply (proj1 (activity_get_handlers_matching
                  examples.user_and_builtin handlers.AUTHENTICATION)).
  assert (registries.ActivityRegistry.get_handlers examples.user_and_builtin
            handlers.AUTHENTICATION = [examples.user_login]) as -> by reflexivity.
  apply list_elem_of_here.
Defined.

(** The event about a pod goes to the pod's namespace, also where the
    configuration cannot be read. *)
Lemma post_event_namespace_of_reference_witness :
  events.resolve_namespace (examples.cluster_answering (py.Returned ()))
    examples.pod_ref = py.Returned "default" ∧
  events.post_event
    {| events.utcnow_isoformat :=
         events.utcnow_isoformat (examples.cluster_answering (py.Returned ()));
       events.get_pykube_cfg_namespace := py.Raised examples.http_error;
       events.get_pykube_api :=
         events.get_pykube_api (examples.cluster_answering (py.Returned ()));
       events.create := events.create (examples.cluster_answering (py.Returned ())) |}
    examples.pod_ref "Normal" "Created" "Handler succeeded."
  = events.post_event (examples.cluster_answering (py.Returned ()))
      examples.pod_ref "Normal" "Created" "Handler succeeded.".
Proof.
  apply (post_event_namespace_of_reference
           (examples.cluster_answering (py.Returned ())) examples.pod_ref
           "Normal" "Created" "Handler succeeded." "default"
           (py.Raised examples.http_error)); [reflexivity | discriminate].
Defined.

(** The event about a node goes to the namespace of the configuration. *)
Lemma post_event_namespace_of_configuration_witness :
  ∃ body rest,
    snd (events.post_event (examples.cluster_answering (py.Returned ()))
           more_examples.node_ref "Normal" "Created" "Handler succeeded.")
      = events.Submitted body :: rest ∧
    events.metadata_namespace body = "default" ∧
    events.involvedObject body !! "namespace" = Some "default" ∧
    ∀ key, key ≠ "namespace" →
           events.involvedObject body !! key = more_examples.node_ref !! key.
Proof.
  apply (post_event_namespace_of_configuration
           (examples.cluster_answering (py.Returned ())) more_examples.node_ref
           "Normal" "Created" "Handler succeeded." "default");
    [left|..]; reflexivity.
Defined.

(** An HTTP error of the namespace lookup is raised, not logged. *)
Lemma post_event_unguarded_namespace_lookup_witness :
  events.post_event more_examples.unconfigured_cluster more_examples.node_ref
    "Normal" "Created" "Handler succeeded."
  = (py.Raised examples.http_error, []).
Proof.
  apply (post_event_unguarded_namespace_lookup
           more_examples.unconfigured_cluster more_examples.node_ref
           "Normal" "Created" "Handler succeeded." examples.http_error).
  reflexivity.
Defined.

(** The warning about an HTTP error answer belongs to a run that
    returns. *)
Lemma post_event_effects_disciplined_witness :
  fst (events.post_event
         (examples.cluster_answering (py.Raised examples.http_error))
         examples.pod_ref "Normal" "Created" "Handler succeeded.")
    = py.Returned () ∧
  is_http_error examples.http_error = true ∧
  events.shorten "Handler succeeded." = events.shorten "Handler succeeded.".
Proof.
  apply (proj1 (proj2 (proj2 (post_event_effects_disciplined
           (examples.cluster_answering (py.Raised examples.http_error))
           examples.pod_ref "Normal" "Created" "Handler succeeded.")))
           examples.http_error "Normal" "Created"
           (events.shorten "Handler succeeded.")).
  assert (snd (events.post_event
                 (examples.cluster_answering (py.Raised examples.http_error))
                 examples.pod_ref "Normal" "Created" "Handler succeeded.")
          = [events.Submitted
               (events.event_body "2019-01-28T18:25:03.000000" "default"
                  "Normal" "Created" "Handler succeeded." examples.pod_ref);
             events.LoggedWarning examples.http_error "Normal" "Created"
               (events.shorten "Handler succeeded.")]) as ->
    by (vm_compute; reflexivity).
  apply list_elem_of_further, list_elem_of_here.
Defined.

(** With both client libraries installed and a login handler of the
    user, the lookup returns the user's handler. *)
Lemma smart_registry_defers_to_user_witness :
  Forall (λ handler, handler ∈ [examples.user_login])
    (registries.ActivityRegistry.get_handlers
       (operator.activity_handlers
          (foldl operator.append_activity
             (operator.SmartOperatorRegistry.__init__ more_examples.both_libraries)
             [examples.user_login]))
       handlers.AUTHENTICATION).
Proof.
  assert (∀ user, user ∈ [examples.user_login] → handlers._fallback user = false)
    as Hregular.
  { intros user ->%list_elem_of_singleton. reflexivity. }
  apply Forall_forall.
  apply (proj1 (smart_registry_defers_to_user more_examples.both_libraries
                  [examples.user_login] Hregular)).
  exists examples.user_login. split; [apply list_elem_of_here | by right].
Defined.

(** * Fallbacks that name their activity *)

Section scoped_fallbacks.
Import handlers registries registries.ActivityRegistry.

Lemma List_filter_ext_elem {A} (f g : A → bool) (l : list A) :
  (∀ x, x ∈ l → f x = g x) → List.filter f l = List.filter g l.
Proof.
  intros Hext. apply filter_ext_in. intros x Hin. by apply Hext, list_elem_of_In.
Qed.

Lemma is_regular_scoped (requested : Activity) (handler : ActivityHandler) :
  (_fallback handler = true → activity handler ≠ None) →
  is_regular requested handler = serves requested handler && negb (_fallback handler).
Proof.
  unfold is_regular, serves. intros Hscoped.
  destruct (_fallback handler); simpl.
  - rewrite bool_decide_eq_false_2 by auto. by rewrite !andb_false_r.
  - by rewrite !andb_true_r.
Qed.

End scoped_fallbacks.

(** X28. When every fallback-marked handler names its activity, the
    activity registry returns the deduplicated handlers that serve the
    activity and are no fallbacks, if there are any, and otherwise the
    deduplicated fallbacks that serve it. *)
Theorem activity_get_handlers_scoped_fallbacks
    (self : registries.GenericRegistry handlers.ActivityHandler)
    (requested : handlers.Activity) :
  (∀ handler, handler ∈ registries._handlers self →
     handlers._fallback handler = true → handlers.activity handler ≠ None) →
  registries.ActivityRegistry.get_handlers self requested =
  match List.filter (λ handler, serves requested handler
                                && negb (handlers._fallback handler))
          (registries._handlers self) with
  | [] =>
      registries._deduplicated
        (List.filter (λ handler, serves requested handler
                                 && handlers._fallback handler)
           (registries._handlers self))
  | regular => registries._deduplicated regular
  end.
Proof.
  intros Hscoped. unfold registries.ActivityRegistry.get_handlers.
  rewrite iter_handlers_filter.
  assert (List.filter (registries.ActivityRegistry.is_regular requested)
            (registries._handlers self)
          = List.filter (λ handler, serves requested handler
                                    && negb (handlers._fallback handler))
              (registries._handlers self)) as Hregular.
  { apply List_filter_ext_elem. intros h Hin. apply is_regular_scoped. auto. }
  rewrite <- Hregular.
  destruct (existsb (registries.ActivityRegistry.is_regular requested)
              (registries._handlers self)) eqn:Hex.
  - destruct (List.filter (registries.ActivityRegistry.is_regular requested)
                (registries._handlers self)) as [|first others] eqn:Hf; [|done].
    exfalso. apply existsb_exists in Hex as (h & Hin & Hreg).
    apply list_elem_of_In in Hin.
    rewrite (proj1 (List_filter_nil _ _) Hf h Hin) in Hreg. discriminate.
  - rewrite existsb_false in Hex.
    rewrite (proj2 (List_filter_nil _ _) Hex).
    f_equal. apply List_filter_ext_elem. intros h Hin.
    specialize (Hex h Hin).
    unfold registries.ActivityRegistry.is_regular in Hex.
    unfold registries.ActivityRegistry.is_fallback, serves.
    apply orb_false_iff in Hex as [-> Hrest]. simpl.
    destruct (bool_decide (handlers.activity h = Some requested)); [|done].
    by destruct (handlers._fallback h).
Qed.

(** The built-in fallback names its activity, so the user's handler is
    returned alone. *)
Lemma activity_get_handlers_scoped_fallbacks_witness :
  registries.ActivityRegistry.get_handlers examples.user_and_builtin
    handlers.AUTHENTICATION
  = registries._deduplicated [examples.user_login].
Proof.
  apply (activity_get_handlers_scoped_fallbacks examples.user_and_builtin
           handlers.AUTHENTICATION).
  intros h Hin Hfb.
  repeat (apply elem_of_cons in Hin as [-> | Hin]; [done|]).
  by apply elem_of_nil in Hin.
Defined.

(** * Filters on bodies without metadata *)

(** X29. Missing metadata is no error: against a body without metadata,
    the label filter and the annotation filter of a handler are checked
    as against no labels and no annotations, so each passes exactly when
    all its entries are satisfied by a missing value ([ABSENT] entries,
    and callables that accept [None]). *)
Theorem filters_on_missing_metadata (handler : handlers.AnyResourceHandler)
    (cause : causation.AnyCause) :
  bodies.metadata (causation.body_of cause) = None →
  (registries._matches_labels handler cause = true ↔
   ∀ key value,
     (key, value) ∈ default [] (handlers.labels (handlers.resource_base handler)) →
     satisfied value None cause) ∧
  (registries._matches_annotations handler cause = true ↔
   ∀ key value,
     (key, value) ∈ default [] (handlers.annotations (handlers.resource_base handler)) →
     satisfied value None cause).
Proof.
  intros Hmissing.
  unfold registries._matches_labels, registries._matches_annotations,
    bodies.get_labels, bodies.get_annotations.
  rewrite Hmissing. simpl.
  split.
  - destruct (handlers.labels (handlers.resource_base handler)) as [[|entry rest]|];
      simpl registries.no_filter; simpl default at 1 2.
    + split; [|done]. intros _ key value Hin. by apply elem_of_nil in Hin.
    + rewrite orb_false_l, _matches_metadata_all.
      by setoid_rewrite lookup_empty.
    + split; [|done]. intros _ key value Hin. by apply elem_of_nil in Hin.
  - destruct (handlers.annotations (handlers.resource_base handler))
      as [[|entry rest]|]; simpl registries.no_filter; simpl default at 1 2.
    + split; [|done]. intros _ key value Hin. by apply elem_of_nil in Hin.
    + rewrite orb_false_l, _matches_metadata_all.
      by setoid_rewrite lookup_empty.
    + split; [|done]. intros _ key value Hin. by apply elem_of_nil in Hin.
Qed.

(** A spy on resources without the label [legacy] sees a resource
    without any metadata. *)
Lemma filters_on_missing_metadata_witness :
  registries._matches_labels (handlers.Watching more_examples.spy_on_current)
    (causation.Plain examples.plain_cause) = true.
Proof.
  apply (proj1 (filters_on_missing_metadata
                  (handlers.Watching more_examples.spy_on_current)
                  (causation.Plain examples.plain_cause) eq_refl)).
  intros key value Hin.
  apply elem_of_cons in Hin as [[= -> ->] | Hin]; [reflexivity|].
  by apply elem_of_nil in Hin.
Defined.
